(** * Sahaty: the scan session of [index.tsx]

    A shallow embedding of the [App] component of [src/index.tsx]: its six
    React state cells, the refs and browser objects its handlers touch, and
    one transition function per handler.  Asynchronous handlers are split at
    their [await]: the part before it and the continuation that runs when the
    promise settles, so that other handlers may run in between.

    [step] follows a handler by the commit of its render; [live_step] also
    asks that the render returned, which the markup does not do for every
    value the handlers store.  The effect that writes the history back to
    [localStorage] is not part of the model: no property below reads it. *)

From Stdlib Require Import List String Ascii ZArith QArith Bool Arith Lia.
From Stdlib Require Import DecimalString.
Import ListNotations.

Local Close Scope Q_scope.
Local Open Scope string_scope.
Local Open Scope list_scope.

(** ** JavaScript values that reach the component

    [JSON.parse] returns [any]: the component stores what it gets without
    checking its shape, so results and history hold arbitrary JSON values.
    A number is kept as the exact rational its literal denotes (the rounding
    to binary64 is not modelled); [Date.now()] is an integer. *)

Module JS.

#[local] Unset Elimination Schemes.
Inductive JSON : Type :=
| JNull
| JBool (b : bool)
| JNumber (q : Q)
| JString (s : string)
| JArray (elts : list JSON)
| JObject (props : list (string * JSON)).
#[local] Set Elimination Schemes.

(** A key is an array index when it is the canonical decimal form of an
    integer below 2^32 - 1; such keys are enumerated first, in ascending
    order, before the other keys in insertion order. *)
Definition is_digit (c : ascii) : bool :=
  let n := nat_of_ascii c in (48 <=? n)%nat && (n <=? 57)%nat.

Fixpoint digits_value (acc : N) (s : string) : option N :=
  match s with
  | EmptyString => Some acc
  | String c rest =>
      if is_digit c
      then digits_value (acc * 10 + N.of_nat (nat_of_ascii c - 48)) rest
      else None
  end.

Definition array_index (k : string) : option N :=
  match k with
  | EmptyString => None
  | String c rest =>
      if (Ascii.eqb c "0" && negb (String.eqb rest ""))%bool then None
      else match digits_value 0 k with
           | Some n => if (n <? 4294967295)%N then Some n else None
           | None => None
           end
  end.

Fixpoint obj_get (k : string) (o : list (string * JSON)) : option JSON :=
  match o with
  | [] => None
  | (k', v) :: rest => if String.eqb k k' then Some v else obj_get k rest
  end.

Definition obj_has (k : string) (o : list (string * JSON)) : bool :=
  match obj_get k o with Some _ => true | None => false end.

(** Overwrite the value of an existing key, keeping its place. *)
Fixpoint obj_replace (k : string) (v : JSON) (o : list (string * JSON))
  : list (string * JSON) :=
  match o with
  | [] => []
  | (k', v') :: rest =>
      if String.eqb k k' then (k', v) :: rest
      else (k', v') :: obj_replace k v rest
  end.

(** Place a new index key [n] among the index keys, which come first. *)
Fixpoint obj_insert_index (n : N) (k : string) (v : JSON)
    (o : list (string * JSON)) : list (string * JSON) :=
  match o with
  | [] => [(k, v)]
  | (k', v') :: rest =>
      match array_index k' with
      | Some m =>
          if (m <? n)%N then (k', v') :: obj_insert_index n k v rest
          else (k, v) :: o
      | None => (k, v) :: o
      end
  end.

(** [o[k] = v] on an ordinary object. *)
Definition obj_set (k : string) (v : JSON) (o : list (string * JSON))
  : list (string * JSON) :=
  if obj_has k o then obj_replace k v o
  else match array_index k with
       | Some n => obj_insert_index n k v o
       | None => o ++ [(k, v)]
       end.

Definition index_key (i : nat) : string :=
  NilEmpty.string_of_uint (Nat.to_uint i).

Fixpoint indexed {A : Type} (i : nat) (l : list A) : list (string * A) :=
  match l with
  | [] => []
  | x :: rest => (index_key i, x) :: indexed (S i) rest
  end.

(** Text is kept as its UTF-8 bytes; a surrogate that stands alone is kept
    as the three bytes of its code.  A byte [10xxxxxx] continues the
    character that the bytes before it began. *)
Definition is_continuation (c : ascii) : bool :=
  let n := nat_of_ascii c in ((128 <=? n) && (n <? 192))%nat.

Definition continues (s : string) : bool :=
  match s with
  | String d _ => is_continuation d
  | EmptyString => false
  end.

(** The characters (code points) of [s], in order, each as its bytes. *)
Fixpoint code_points (s : string) : list string :=
  match s with
  | EmptyString => []
  | String c rest =>
      match code_points rest with
      | g :: gs =>
          if continues rest then String c g :: gs
          else String c EmptyString :: g :: gs
      | [] => [String c EmptyString]
      end
  end.

(** The three bytes of a code unit at or above 2048. *)
Definition three_bytes (u : N) : string :=
  String (ascii_of_N (224 + u / 4096))
    (String (ascii_of_N (128 + (u / 64) mod 64))
       (String (ascii_of_N (128 + u mod 64)) EmptyString)).

(** The UTF-16 code units of one character: a character of four bytes, which
    lies beyond the basic plane, is a pair of surrogates. *)
Definition units_of (g : string) : list string :=
  match g with
  | String b0 (String b1 (String b2 (String b3 EmptyString))) =>
      let cp := ((N_of_ascii b0 mod 8) * 262144
                 + (N_of_ascii b1 mod 64) * 4096
                 + (N_of_ascii b2 mod 64) * 64
                 + N_of_ascii b3 mod 64)%N in
      [three_bytes (55296 + (cp - 65536) / 1024);
       three_bytes (56320 + (cp - 65536) mod 1024)]
  | _ => [g]
  end.

(** The code units of [s], which are what indexing and [length] count. *)
Definition code_units (s : string) : list string :=
  flat_map units_of (code_points s).

(** What iterating [s] yields: one string per character. *)
Definition chars (s : string) : list JSON :=
  map JString (code_points s).

(** The indexed properties of [s]: one string per code unit. *)
Definition units (s : string) : list JSON :=
  map JString (code_units s).

(** The own enumerable properties that [{ ...v }] copies. *)
Definition own_props (v : JSON) : list (string * JSON) :=
  match v with
  | JObject props => props
  | JArray elts => indexed 0 elts
  | JString s => indexed 0 (units s)
  | JNull | JBool _ | JNumber _ => []
  end.

(** [{ ...v }]: each property is defined on a fresh object in turn. *)
Definition spread (v : JSON) : list (string * JSON) :=
  fold_left (fun o kv => obj_set (fst kv) (snd kv) o) (own_props v) [].

(** What [[...v]] iterates; [None] is the TypeError of a non-iterable. *)
Definition iterate (v : JSON) : option (list JSON) :=
  match v with
  | JArray elts => Some elts
  | JString s => Some (chars s)
  | _ => None
  end.

(** Truthiness, as [&&] and [if] test it. *)
Definition truthy_string (s : string) : bool := negb (String.eqb s "").

End JS.
Export JS.

(** ** The text grammar of [JSON.parse]

    [JSON.parse] is a builtin, not code of the repository: the component is
    verified for an arbitrary parser (a Section variable below).  This
    reference parser follows the ECMA-404 grammar and serves as the concrete
    instance at which the theorems are exercised.  Text is a byte string; a
    [\uXXXX] escape is stored as the UTF-8 bytes of its code unit, and an
    escaped surrogate pair as the four bytes of its character. *)

Module JSONText.

Definition is_ws (c : ascii) : bool :=
  let n := nat_of_ascii c in
  ((n =? 32) || (n =? 9) || (n =? 10) || (n =? 13))%nat.

Fixpoint skip_ws (s : string) : string :=
  match s with
  | String c rest => if is_ws c then skip_ws rest else s
  | EmptyString => s
  end.

Fixpoint strip_prefix (p s : string) : option string :=
  match p, s with
  | EmptyString, _ => Some s
  | String a p', String b s' => if Ascii.eqb a b then strip_prefix p' s' else None
  | String _ _, EmptyString => None
  end.

(** The longest run of decimal digits at the front of [s]. *)
Fixpoint take_digits (s : string) : string * string :=
  match s with
  | String c rest =>
      if is_digit c
      then let (ds, r) := take_digits rest in (String c ds, r)
      else (EmptyString, s)
  | EmptyString => (EmptyString, s)
  end.

Definition digits_N (ds : string) : N :=
  match digits_value 0 ds with Some n => n | None => 0%N end.

(** [m * 10^e] as a reduced fraction. *)
Definition scale10 (m e : Z) : Q :=
  if (0 <=? e)%Z then Qmake (m * 10 ^ e) 1
  else Qred (Qmake m (Z.to_pos (10 ^ (- e)))).

Definition parse_int_part (s : string) : option (string * string) :=
  match s with
  | String c rest =>
      if Ascii.eqb c "0" then Some ("0", rest)
      else if is_digit c then Some (take_digits s)
      else None
  | EmptyString => None
  end.

Definition parse_frac_part (s : string) : option (string * string) :=
  match s with
  | String "." rest =>
      match take_digits rest with
      | (EmptyString, _) => None
      | (ds, r) => Some (ds, r)
      end
  | _ => Some (EmptyString, s)
  end.

Definition parse_exp_digits (neg : bool) (s : string) : option (Z * string) :=
  match take_digits s with
  | (EmptyString, _) => None
  | (ds, r) =>
      let e := Z.of_N (digits_N ds) in
      Some (if neg then (- e)%Z else e, r)
  end.

Definition parse_exp_part (s : string) : option (Z * string) :=
  match s with
  | String c rest =>
      if (Ascii.eqb c "e" || Ascii.eqb c "E")%bool then
        match rest with
        | String "+" r => parse_exp_digits false r
        | String "-" r => parse_exp_digits true r
        | _ => parse_exp_digits false rest
        end
      else Some (0%Z, s)
  | EmptyString => Some (0%Z, s)
  end.

Definition parse_unsigned (neg : bool) (s : string) : option (Q * string) :=
  match parse_int_part s with
  | Some (ip, r1) =>
      match parse_frac_part r1 with
      | Some (fp, r2) =>
          match parse_exp_part r2 with
          | Some (e, r3) =>
              let m := Z.of_N (digits_N (ip ++ fp)) in
              let m := if neg then (- m)%Z else m in
              Some (scale10 m (e - Z.of_nat (String.length fp)), r3)
          | None => None
          end
      | None => None
      end
  | None => None
  end.

Definition parse_number (s : string) : option (Q * string) :=
  match s with
  | String "-" rest => parse_unsigned true rest
  | _ => parse_unsigned false s
  end.

Definition hex_value (c : ascii) : option N :=
  let n := nat_of_ascii c in
  if ((48 <=? n) && (n <=? 57))%nat then Some (N.of_nat (n - 48))
  else if ((65 <=? n) && (n <=? 70))%nat then Some (N.of_nat (n - 55))
  else if ((97 <=? n) && (n <=? 102))%nat then Some (N.of_nat (n - 87))
  else None.

Definition hex4 (a b c d : ascii) : option N :=
  match hex_value a, hex_value b, hex_value c, hex_value d with
  | Some x, Some y, Some z, Some w => Some (((x * 16 + y) * 16 + z) * 16 + w)%N
  | _, _, _, _ => None
  end.

Definition byte (n : N) : ascii := ascii_of_N n.

(** The low surrogate that [tail] begins with, if any, and what follows. *)
Definition leading_low_surrogate (tail : string) : option (N * string) :=
  match tail with
  | String b0 (String b1 (String b2 rest)) =>
      let lo := ((N_of_ascii b0 mod 16) * 4096 + (N_of_ascii b1 mod 64) * 64
                 + N_of_ascii b2 mod 64)%N in
      if ((N_of_ascii b0 =? 237) && (56320 <=? lo) && (lo <? 57344))%N
      then Some (lo, rest) else None
  | _ => None
  end.

Definition four_bytes (cp : N) (tail : string) : string :=
  String (byte (240 + cp / 262144))
    (String (byte (128 + (cp / 4096) mod 64))
       (String (byte (128 + (cp / 64) mod 64))
          (String (byte (128 + cp mod 64)) tail))).

(** Put the code unit [u] in front of [tail]; a high surrogate in front of
    a low one makes the four bytes of their character. *)
Definition utf8_unit (u : N) (tail : string) : string :=
  if (u <? 128)%N then String (byte u) tail
  else if (u <? 2048)%N then
    String (byte (192 + u / 64)) (String (byte (128 + u mod 64)) tail)
  else
    match leading_low_surrogate tail with
    | Some (lo, rest) =>
        if ((55296 <=? u) && (u <? 56320))%N
        then four_bytes (65536 + (u - 55296) * 1024 + (lo - 56320)) rest
        else String (byte (224 + u / 4096))
               (String (byte (128 + (u / 64) mod 64))
                  (String (byte (128 + u mod 64)) tail))
    | None =>
        String (byte (224 + u / 4096))
          (String (byte (128 + (u / 64) mod 64))
             (String (byte (128 + u mod 64)) tail))
    end.

Definition simple_escape (e : ascii) : option ascii :=
  let n := nat_of_ascii e in
  if ((n =? 34) || (n =? 92) || (n =? 47))%nat then Some e
  else if (n =? 98)%nat then Some (ascii_of_nat 8)      (* b *)
  else if (n =? 102)%nat then Some (ascii_of_nat 12)    (* f *)
  else if (n =? 110)%nat then Some (ascii_of_nat 10)    (* n *)
  else if (n =? 114)%nat then Some (ascii_of_nat 13)    (* r *)
  else if (n =? 116)%nat then Some (ascii_of_nat 9)     (* t *)
  else None.

Definition prepend (c : ascii) (r : option (string * string))
  : option (string * string) :=
  match r with
  | Some (body, rest) => Some (String c body, rest)
  | None => None
  end.

(** The characters after an opening quote, up to the closing one. *)
Fixpoint parse_string_body (s : string) : option (string * string) :=
  match s with
  | EmptyString => None
  | String c rest =>
      if (nat_of_ascii c =? 34)%nat then Some (EmptyString, rest)
      else if (nat_of_ascii c =? 92)%nat then
        match rest with
        | String e rest' =>
            if (nat_of_ascii e =? 117)%nat then
              match rest' with
              | String h1 (String h2 (String h3 (String h4 rest''))) =>
                  match hex4 h1 h2 h3 h4, parse_string_body rest'' with
                  | Some u, Some (body, r) => Some (utf8_unit u body, r)
                  | _, _ => None
                  end
              | _ => None
              end
            else
              match simple_escape e with
              | Some c' => prepend c' (parse_string_body rest')
              | None => None
              end
        | EmptyString => None
        end
      else if (nat_of_ascii c <? 32)%nat then None
      else prepend c (parse_string_body rest)
  end.

Definition parse_scalar (s : string) : option (JSON * string) :=
  match strip_prefix "true" s with
  | Some r => Some (JBool true, r)
  | None =>
  match strip_prefix "false" s with
  | Some r => Some (JBool false, r)
  | None =>
  match strip_prefix "null" s with
  | Some r => Some (JNull, r)
  | None =>
  match parse_number s with
  | Some (q, r) => Some (JNumber q, r)
  | None => None
  end end end end.

Fixpoint parse_value (fuel : nat) (s : string) {struct fuel}
  : option (JSON * string) :=
  match fuel with
  | O => None
  | S fuel' =>
      match skip_ws s with
      | String c rest =>
          if (nat_of_ascii c =? 123)%nat then          (* { *)
            match skip_ws rest with
            | String "}" r => Some (JObject [], r)
            | _ => parse_members fuel' rest []
            end
          else if (nat_of_ascii c =? 91)%nat then      (* [ *)
            match skip_ws rest with
            | String "]" r => Some (JArray [], r)
            | _ => parse_elements fuel' rest []
            end
          else if (nat_of_ascii c =? 34)%nat then      (* quote *)
            match parse_string_body rest with
            | Some (str, r) => Some (JString str, r)
            | None => None
            end
          else parse_scalar (String c rest)
      | EmptyString => None
      end
  end

with parse_members (fuel : nat) (s : string) (acc : list (string * JSON))
  {struct fuel} : option (JSON * string) :=
  match fuel with
  | O => None
  | S fuel' =>
      match skip_ws s with
      | String c rest =>
          if (nat_of_ascii c =? 34)%nat then
            match parse_string_body rest with
            | Some (k, r1) =>
                match skip_ws r1 with
                | String ":" r2 =>
                    match parse_value fuel' r2 with
                    | Some (v, r3) =>
                        match skip_ws r3 with
                        | String "," r4 => parse_members fuel' r4 (obj_set k v acc)
                        | String "}" r4 => Some (JObject (obj_set k v acc), r4)
                        | _ => None
                        end
                    | None => None
                    end
                | _ => None
                end
            | None => None
            end
          else None
      | EmptyString => None
      end
  end

with parse_elements (fuel : nat) (s : string) (acc : list JSON)
  {struct fuel} : option (JSON * string) :=
  match fuel with
  | O => None
  | S fuel' =>
      match parse_value fuel' s with
      | Some (v, r) =>
          match skip_ws r with
          | String "," r' => parse_elements fuel' r' (acc ++ [v])
          | String "]" r' => Some (JArray (acc ++ [v]), r')
          | _ => None
          end
      | None => None
      end
  end.

(** [JSON.parse(text)]: [None] is the SyntaxError. *)
Definition parse (text : string) : option JSON :=
  match parse_value (S (String.length text)) text with
  | Some (v, rest) =>
      match skip_ws rest with
      | EmptyString => Some v
      | String _ _ => None
      end
  | None => None
  end.

End JSONText.

(** ** The text grammar of [Number]

    The conversion of a string to a number is a builtin as well, and the
    markup is verified for an arbitrary one.  This reference follows the
    StringNumericLiteral grammar of ECMA-262 and tells whether the number
    is above zero; a decimal that rounds to zero in binary64, that is one
    at or below 2^-1075, is not. *)

Module NumberText.

(** What follows one white space or line terminator at the front. *)
Definition strip_space (s : string) : option string :=
  match s with
  | String c rest =>
      let n := nat_of_ascii c in
      if (((9 <=? n) && (n <=? 13)) || (n =? 32))%nat then Some rest
      else
        match rest with
        | String d rest1 =>
            let m := nat_of_ascii d in
            if ((n =? 194) && (m =? 160))%nat then Some rest1      (* 00A0 *)
            else
              match rest1 with
              | String f rest2 =>
                  let k := nat_of_ascii f in
                  if (((n =? 225) && (m =? 154) && (k =? 128))     (* 1680 *)
                      || ((n =? 226) && (m =? 128)
                          && (((128 <=? k) && (k <=? 138))         (* 2000-200A *)
                              || (k =? 168) || (k =? 169)          (* 2028 2029 *)
                              || (k =? 175)))                      (* 202F *)
                      || ((n =? 226) && (m =? 129) && (k =? 159))  (* 205F *)
                      || ((n =? 227) && (m =? 128) && (k =? 128))  (* 3000 *)
                      || ((n =? 239) && (m =? 187) && (k =? 191)))%nat
                                                                   (* FEFF *)
                  then Some rest2 else None
              | EmptyString => None
              end
        | EmptyString => None
        end
  | EmptyString => None
  end.

Fixpoint skip_space (fuel : nat) (s : string) : string :=
  match fuel with
  | O => s
  | S fuel' =>
      match strip_space s with
      | Some rest => skip_space fuel' rest
      | None => s
      end
  end.

Definition only_space (s : string) : bool :=
  String.eqb (skip_space (String.length s) s) EmptyString.

(** The digits of [s] in base [b], most significant first: their value,
    how many there are, and what follows. *)
Fixpoint take_base (b : N) (acc : N) (count : nat) (s : string)
  : N * nat * string :=
  match s with
  | String c rest =>
      match JSONText.hex_value c with
      | Some d =>
          if (d <? b)%N then take_base b (acc * b + d) (S count) rest
          else (acc, count, s)
      | None => (acc, count, s)
      end
  | EmptyString => (acc, count, s)
  end.

(** [0x], [0o] or [0b] and digits, to the end but for spaces. *)
Definition other_base_positive (s : string) : option bool :=
  match s with
  | String z (String x rest) =>
      let n := nat_of_ascii x in
      let b := if ((n =? 120) || (n =? 88))%nat then 16%N
               else if ((n =? 111) || (n =? 79))%nat then 8%N
               else if ((n =? 98) || (n =? 66))%nat then 2%N
               else 0%N in
      if (Ascii.eqb z "0" && negb (b =? 0)%N)%bool then
        match take_base b 0 0 rest with
        | (v, count, after) =>
            if (negb (count =? 0)%nat && only_space after)%bool
            then Some (0 <? v)%N else None
        end
      else None
  | _ => None
  end.

(** The exponent part, if any: its value and what follows; [None] when it
    is begun and not finished. *)
Definition exponent (s : string) : option (Z * string) :=
  match s with
  | String c rest =>
      if (Ascii.eqb c "e" || Ascii.eqb c "E")%bool then
        match rest with
        | String "+" r => JSONText.parse_exp_digits false r
        | String "-" r => JSONText.parse_exp_digits true r
        | _ => JSONText.parse_exp_digits false rest
        end
      else Some (0%Z, s)
  | EmptyString => Some (0%Z, s)
  end.

(** [m * 10^e] is above 2^-1075. *)
Definition above_half_least (m : N) (e : Z) : bool :=
  if (m =? 0)%N then false
  else if (0 <=? e)%Z then true
  else (10 ^ (- e) <? Z.of_N m * 2 ^ 1075)%Z.

(** An unsigned decimal, to the end but for spaces: is it above zero. *)
Definition decimal_positive (s : string) : option bool :=
  match JSONText.strip_prefix "Infinity" s with
  | Some after => if only_space after then Some true else None
  | None =>
      let (whole, r1) := JSONText.take_digits s in
      let (frac, r2) :=
        match r1 with
        | String "." r => JSONText.take_digits r
        | _ => (EmptyString, r1)
        end in
      if (String.eqb whole EmptyString && String.eqb frac EmptyString)%bool
      then None
      else
        match exponent r2 with
        | Some (e, after) =>
            if only_space after
            then Some (above_half_least
                         (JSONText.digits_N (whole ++ frac))
                         (e - Z.of_nat (String.length frac)))
            else None
        | None => None
        end
  end.

(** [Number(text) > 0]; a text that is no numeric literal is NaN, and a
    text of spaces only is zero. *)
Definition positive (text : string) : bool :=
  let s := skip_space (String.length text) text in
  match other_base_positive s with
  | Some b => b
  | None =>
      match s with
      | String "+" rest =>
          match decimal_positive rest with Some b => b | None => false end
      | String "-" rest => false
      | _ =>
          match decimal_positive s with Some b => b | None => false end
      end
  end.

End NumberText.

(** ** Browser objects the handlers touch *)

Inductive TrackState := Live | Ended.

(** A [MediaStream] is the list of its tracks ([getTracks()]). *)
Definition MediaStream := list TrackState.

Definition stop_tracks (s : MediaStream) : MediaStream :=
  map (fun _ => Ended) s.

Definition track_live (t : TrackState) : bool :=
  match t with Live => true | Ended => false end.

Definition stream_released (s : MediaStream) : bool :=
  forallb (fun t => negb (track_live t)) s.

(** A [File] of the file input: its byte size. *)
Record File := mkFile { size : N }.

(** What was thrown inside the [try] of [analyzeProduct]. *)
Inductive Thrown :=
| RemoteError (message : string)   (* the remote call, or what leads to it *)
| SyntaxError (text : string).     (* JSON.parse, on [text] *)

(** What [console.error] received. *)
Inductive LogEntry :=
| LogError (label : string)        (* console.error(label, e) *)
| LogException (err : Thrown).     (* console.error(err) *)

(** How [ai.models.generateContent] settles: an exception of the [try]
    block before the parse, with its message, or a response whose [text]
    may be undefined. *)
Inductive Remote :=
| Rejected (message : string)
| Responded (text : option string).

(** How [getUserMedia] settles. *)
Inductive Media :=
| Granted (stream : MediaStream)
| Denied.

Definition ANALYSIS_FAILED : string :=
  "حدث خطأ أثناء تحليل الصورة. يرجى التأكد من وضوح الملصق الغذائي.".
Definition FILE_TOO_LARGE : string :=
  "حجم الصورة يجب أن يكون أقل من 5 ميجابايت".
Definition CAMERA_DENIED : string :=
  "لا يمكن الوصول للكاميرا. يرجى منح الإذن.".

(** ** The component state

    The six [useState] cells, then what lives outside React: the video ref
    with the [srcObject] of its element, every stream [getUserMedia] handed
    out (a stream's id is its position), the console, and the images handed
    to [analyzeProduct]. *)

Record State := mkState {
  image : option string;
  analyzing : bool;
  result : JSON;                     (* null is [JNull] *)
  error : option string;
  showCamera : bool;
  history : JSON;                    (* declared AnalysisResult[], unchecked *)
  video : option (option nat);       (* videoRef.current, its srcObject *)
  streams : list MediaStream;
  console : list LogEntry;
  submitted : list string
}.

Definition setImage (v : option string) (st : State) : State :=
  mkState v (analyzing st) (result st) (error st) (showCamera st) (history st)
          (video st) (streams st) (console st) (submitted st).
Definition setAnalyzing (v : bool) (st : State) : State :=
  mkState (image st) v (result st) (error st) (showCamera st) (history st)
          (video st) (streams st) (console st) (submitted st).
Definition setResult (v : JSON) (st : State) : State :=
  mkState (image st) (analyzing st) v (error st) (showCamera st) (history st)
          (video st) (streams st) (console st) (submitted st).
Definition setError (v : option string) (st : State) : State :=
  mkState (image st) (analyzing st) (result st) v (showCamera st) (history st)
          (video st) (streams st) (console st) (submitted st).
Definition setShowCamera (v : bool) (st : State) : State :=
  mkState (image st) (analyzing st) (result st) (error st) v (history st)
          (video st) (streams st) (console st) (submitted st).
Definition setHistory (v : JSON) (st : State) : State :=
  mkState (image st) (analyzing st) (result st) (error st) (showCamera st) v
          (video st) (streams st) (console st) (submitted st).
Definition setVideo (v : option (option nat)) (st : State) : State :=
  mkState (image st) (analyzing st) (result st) (error st) (showCamera st)
          (history st) v (streams st) (console st) (submitted st).
Definition setStreams (v : list MediaStream) (st : State) : State :=
  mkState (image st) (analyzing st) (result st) (error st) (showCamera st)
          (history st) (video st) v (console st) (submitted st).
Definition console_error (e : LogEntry) (st : State) : State :=
  mkState (image st) (analyzing st) (result st) (error st) (showCamera st)
          (history st) (video st) (streams st) (console st ++ [e]) (submitted st).
Definition submit (img : string) (st : State) : State :=
  mkState (image st) (analyzing st) (result st) (error st) (showCamera st)
          (history st) (video st) (streams st) (console st) (submitted st ++ [img]).

Definition initialState : State :=
  mkState None false JNull None false (JArray []) None [] [] [].

(** After a handler React renders again.  This is the commit of a render
    that returned: the [<video>] element exists exactly while [showCamera]
    holds; a fresh element has no [srcObject], and an unmounted one leaves
    the ref null.  Whether the render returns at all is [draws], below. *)
Definition render (st : State) : State :=
  setVideo (if showCamera st
            then match video st with Some v => Some v | None => Some None end
            else None) st.

(** Teardown of the component: no effect registers a cleanup, so nothing
    runs; the elements and their refs are gone. *)
Definition unmount (st : State) : State := setVideo None st.

(** ** History updates *)

(** [xs.filter((_, i) => p(i))], indices counted from [i]. *)
Fixpoint filter_index {A : Type} (p : nat -> bool) (i : nat) (xs : list A)
  : list A :=
  match xs with
  | [] => []
  | x :: rest =>
      if p i then x :: filter_index p (S i) rest
      else filter_index p (S i) rest
  end.

(** [prev => [r, ...prev].slice(0, 10)]; [None] when [prev] is not iterable. *)
Definition historyAppend (r : JSON) (prev : JSON) : option JSON :=
  match iterate prev with
  | Some l => Some (JArray (firstn 10 (r :: l)))
  | None => None
  end.

(** [prev => prev.filter((_, i) => i !== index)]; only an array has
    [filter]. *)
Definition historyRemove (index : Z) (prev : JSON) : option JSON :=
  match prev with
  | JArray l =>
      Some (JArray (filter_index (fun i => negb (Z.of_nat i =? index)%Z) 0 l))
  | _ => None
  end.

(** [{ ...data, timestamp: Date.now() }] *)
Definition withTimestamp (data : JSON) (now : Z) : JSON :=
  JObject (obj_set "timestamp" (JNumber (inject_Z now)) (spread data)).

(** ** The handlers of [App] *)

Section App.

(** [JSON.parse]: [None] stands for the SyntaxError it throws. *)
Variable JSON_parse : string -> option JSON.

(** The mount effect that restores the history from [localStorage];
    [saved] is what [getItem] returned ([None] for null). *)
Definition loadHistory (saved : option string) (st : State) : State :=
  match saved with
  | Some s =>
      if truthy_string s then
        match JSON_parse s with
        | Some v => setHistory v st
        | None => console_error (LogError "Failed to parse history") st
        end
      else st
  | None => st
  end.

Definition mount (saved : option string) : State :=
  render (loadHistory saved initialState).

(** [response.text || '{}'] *)
Definition text_or_default (text : option string) : string :=
  match text with
  | Some s => if truthy_string s then s else "{}"
  | None => "{}"
  end.

(** [analyzeProduct] up to its [await]. *)
Definition analyzeProduct_start (base64Image : string) (st : State) : State :=
  submit base64Image (setError None (setAnalyzing true st)).

(** The [catch] and [finally] blocks, for the exception [err]. *)
Definition analyzeProduct_catch (err : Thrown) (st : State) : State :=
  setAnalyzing false
    (setError (Some ANALYSIS_FAILED) (console_error (LogException err) st)).

(** [analyzeProduct] from the point where the remote call settles, at clock
    value [now].  [None]: the history updater throws (the stored history is
    not iterable) while React applies it, and the tree does not render
    again. *)
Definition analyzeProduct_resume (r : Remote) (now : Z) (st : State)
  : option State :=
  match r with
  | Rejected message => Some (analyzeProduct_catch (RemoteError message) st)
  | Responded text =>
      match JSON_parse (text_or_default text) with
      | None =>
          Some (analyzeProduct_catch (SyntaxError (text_or_default text)) st)
      | Some data =>
          let resultWithMeta := withTimestamp data now in
          match historyAppend resultWithMeta (history st) with
          | Some h =>
              Some (setAnalyzing false
                      (setHistory h (setResult resultWithMeta st)))
          | None => None
          end
      end
  end.

(** A whole analysis with nothing running in between. *)
Definition analyzeProduct (base64Image : string) (r : Remote) (now : Z)
    (st : State) : option State :=
  analyzeProduct_resume r now (analyzeProduct_start base64Image st).

(** A run of analysis settlements, each with its clock value. *)
Fixpoint analyses (rs : list (Remote * Z)) (st : State) : option State :=
  match rs with
  | [] => Some st
  | (r, now) :: rest =>
      match analyzeProduct_resume r now st with
      | Some st' => analyses rest st'
      | None => None
      end
  end.

(** [handleFileUpload]: the state, and the file handed to the
    [FileReader] when one is started. *)
Definition handleFileUpload (file : option File) (st : State)
  : State * option File :=
  match file with
  | Some f =>
      if (5 * 1024 * 1024 <? size f)%N           (* file.size > 5 MiB *)
      then (setError (Some FILE_TOO_LARGE) st, None)
      else (st, Some f)
  | None => (st, None)
  end.

(** [reader.onloadend]; [reader.result] is null when the read failed. *)
Definition reader_onloadend (readerResult : option string) (st : State)
  : State :=
  setResult JNull (setImage readerResult st).

(** [startCamera] up to its [await]. *)
Definition startCamera_start (st : State) : State := setShowCamera true st.

(** [startCamera] from the point where [getUserMedia] settles. *)
Definition startCamera_resume (m : Media) (st : State) : State :=
  match m with
  | Granted stream =>
      let id := List.length (streams st) in
      let st1 := setStreams (streams st ++ [stream]) st in
      match video st1 with
      | Some _ => setVideo (Some (Some id)) st1
      | None => st1
      end
  | Denied => setShowCamera false (setError (Some CAMERA_DENIED) st)
  end.

(** [stream.getTracks().forEach(track => track.stop())] on stream [id]. *)
Fixpoint stop_stream (id : nat) (ss : list MediaStream) : list MediaStream :=
  match ss, id with
  | [], _ => []
  | s :: rest, O => stop_tracks s :: rest
  | s :: rest, S id' => s :: stop_stream id' rest
  end.

Definition stopCamera (st : State) : State :=
  let st1 :=
    match video st with
    | Some (Some id) => setStreams (stop_stream id (streams st)) st
    | _ => st
    end in
  setShowCamera false st1.

(** [capturePhoto]; [frame] is the data URL of the canvas, [None] when
    [getContext('2d')] gives no context.  The canvas is always mounted. *)
Definition capturePhoto (frame : option string) (st : State) : State :=
  match video st, frame with
  | Some _, Some dataUrl =>
      setResult JNull (stopCamera (setImage (Some dataUrl) st))
  | _, _ => st
  end.

(** [None]: the updater throws, the stored history has no [filter]. *)
Definition deleteHistoryItem (index : Z) (st : State) : option State :=
  match historyRemove index (history st) with
  | Some h => Some (setHistory h st)
  | None => None
  end.

(** The click handler of a history card that shows [item]. *)
Definition historyItem_onClick (item : JSON) (st : State) : State :=
  setResult item st.

(** The handler of the clear-all button; [confirmed] is what [confirm]
    returned. *)
Definition clearHistory_onClick (confirmed : bool) (st : State) : State :=
  if confirmed then setHistory (JArray []) st else st.

(** The handler of the button that discards the image. *)
Definition clearImage_onClick (st : State) : State :=
  setResult JNull (setImage None st).

(** The cards that [history.map] renders. *)
Definition rendered_items (st : State) : list JSON :=
  match history st with
  | JArray l => l
  | _ => []
  end.

(** ** Events: a handler, then a render *)

Inductive Event :=
| AnalyzeClicked
| AnalysisSettled (r : Remote) (now : Z)
| FileChosen (file : option File)
| FileLoaded (readerResult : option string)
| CameraClicked
| CameraSettled (m : Media)
| CaptureClicked (frame : option string)
| CancelClicked
| HistoryItemClicked (idx : nat)
| HistoryDeleteClicked (idx : nat)
| ClearHistoryClicked (confirmed : bool)
| ClearImageClicked.

(** [None]: the control is not on screen (or disabled), or an updater
    throws.  The render of the new state is taken to return: see
    [live_step]. *)
Definition step (e : Event) (st : State) : option State :=
  option_map render
    match e with
    | AnalyzeClicked =>
        match image st with
        | Some img =>
            if (truthy_string img && negb (analyzing st))%bool
            then Some (analyzeProduct_start img st)
            else None
        | None => None
        end
    | AnalysisSettled r now => analyzeProduct_resume r now st
    | FileChosen file => Some (fst (handleFileUpload file st))
    | FileLoaded res => Some (reader_onloadend res st)
    | CameraClicked => Some (startCamera_start st)
    | CameraSettled m => Some (startCamera_resume m st)
    | CaptureClicked frame =>
        if showCamera st then Some (capturePhoto frame st) else None
    | CancelClicked =>
        if showCamera st then Some (stopCamera st) else None
    | HistoryItemClicked idx =>
        match nth_error (rendered_items st) idx with
        | Some item => Some (historyItem_onClick item st)
        | None => None
        end
    | HistoryDeleteClicked idx =>
        match nth_error (rendered_items st) idx with
        | Some _ => deleteHistoryItem (Z.of_nat idx) st
        | None => None
        end
    | ClearHistoryClicked confirmed =>
        match rendered_items st with
        | [] => None
        | _ :: _ => Some (clearHistory_onClick confirmed st)
        end
    | ClearImageClicked =>
        match image st with
        | Some img =>
            if (truthy_string img && negb (showCamera st)
                && negb (analyzing st))%bool
            then Some (clearImage_onClick st)
            else None
        | None => None
        end
    end.

Fixpoint run (es : list Event) (st : State) : option State :=
  match es with
  | [] => Some st
  | e :: rest =>
      match step e st with
      | Some st' => run rest st'
      | None => None
      end
  end.

(** Every stream ever handed out has all its tracks stopped. *)
Definition camera_released (st : State) : bool :=
  forallb stream_released (streams st).

(** The live preview is on screen. *)
Definition preview_shown (st : State) : bool :=
  match video st with Some _ => true | None => false end.

End App.

(** ** The markup: when rendering throws

    The handlers store values of any shape, and the markup reads fields of
    them.  A read on null or undefined, a call of a [map] that is not there,
    an object handed to React as a child, and a conversion of an object that
    has its own [toString] all throw; the component has no error boundary,
    so a render that throws unmounts the tree.  [draws] tells whether the
    markup returns for a state.  A possibly undefined value is an
    [option JSON]. *)

Section Markup.

(** [Number(text) > 0], the string-to-number conversion of the language
    followed by the comparison: a builtin. *)
Variable Number_gt0 : string -> bool.

Definition truthy (v : option JSON) : bool :=
  match v with
  | None | Some JNull => false
  | Some (JBool b) => b
  | Some (JNumber q) => negb (Qeq_bool q (inject_Z 0))
  | Some (JString s) => truthy_string s
  | Some (JArray _) | Some (JObject _) => true
  end.

(** [v.k] for the keys the markup reads; the outer [None] is the TypeError
    of a read on null or undefined.  [length] of an array or of a string is
    not an enumerable property. *)
Definition member (v : option JSON) (k : string) : option (option JSON) :=
  match v with
  | None | Some JNull => None
  | Some w =>
      Some
        match w with
        | JArray l =>
            if String.eqb k "length"
            then Some (JNumber (inject_Z (Z.of_nat (List.length l))))
            else obj_get k (own_props w)
        | JString t =>
            if String.eqb k "length"
            then Some (JNumber
                         (inject_Z (Z.of_nat (List.length (code_units t)))))
            else obj_get k (own_props w)
        | _ => obj_get k (own_props w)
        end
  end.

(** React accepts [v] as a child: anything but an object, also inside
    arrays. *)
Fixpoint child_ok (v : JSON) : bool :=
  match v with
  | JArray l => forallb child_ok l
  | JObject _ => false
  | _ => true
  end.

Definition child_draws (v : option JSON) : bool :=
  match v with
  | Some w => child_ok w
  | None => true
  end.

(** The conversion of [v] to a primitive returns: an object with an own
    [toString], which is no function, has no usable conversion, and an array
    converts each of its elements. *)
Fixpoint primitive_ok (v : JSON) : bool :=
  match v with
  | JArray l => forallb primitive_ok l
  | JObject props => negb (obj_has "toString" props)
  | _ => true
  end.

(** [Number(String(v)) > 0] for an element [v] of an array being joined. *)
Fixpoint joined_positive (v : JSON) : bool :=
  match v with
  | JNumber q => negb (Qle_bool q (inject_Z 0))
  | JString t => Number_gt0 t
  | JArray [x] => joined_positive x
  | _ => false
  end.

(** [v > 0]; [None] when the conversion throws. *)
Definition positive (v : option JSON) : option bool :=
  match v with
  | None | Some JNull => Some false
  | Some (JBool b) => Some b
  | Some (JNumber q) => Some (negb (Qle_bool q (inject_Z 0)))
  | Some (JString t) => Some (Number_gt0 t)
  | Some (JArray l) =>
      if primitive_ok (JArray l) then Some (joined_positive (JArray l))
      else None
  | Some (JObject props) =>
      if obj_has "toString" props then None else Some false
  end.

(** The five cells of the nutrition table read [result.nutrition.<field>]
    and show the value. *)
Definition nutrition_draws (n : option JSON) : bool :=
  forallb
    (fun field =>
       match member n field with
       | Some value => child_draws value
       | None => false
       end)
    ["calories"; "protein"; "carbohydrates"; "sugar"; "fat"].

Definition NO_ALLERGENS : string := "لا يوجد".

(** [a && a.length > 0 && a[0] !== NO_ALLERGENS ? a.map(chip) : safe] *)
Definition allergens_draws (a : option JSON) : bool :=
  if truthy a then
    match member a "length", member a "0" with
    | Some len, Some first =>
        match positive len with
        | None => false
        | Some false => true
        | Some true =>
            match first with
            | Some (JString t) =>
                if String.eqb t NO_ALLERGENS then true
                else match a with
                     | Some (JArray l) => forallb child_ok l
                     | _ => false
                     end
            | _ =>
                match a with
                | Some (JArray l) => forallb child_ok l
                | _ => false
                end
            end
        end
    | _, _ => false
    end
  else true.

(** [result.ingredients.map(chip)]: only an array has [map]. *)
Definition ingredients_draws (i : option JSON) : bool :=
  match i with
  | Some (JArray l) => forallb child_ok l
  | _ => false
  end.

(** The results dashboard, [{result && (...)}]. *)
Definition result_draws (r : JSON) : bool :=
  if truthy (Some r) then
    match member (Some r) "product_name", member (Some r) "health_summary",
          member (Some r) "health_grade", member (Some r) "nutrition",
          member (Some r) "allergens", member (Some r) "ingredients" with
    | Some name, Some summary, Some grade, Some n, Some a, Some i =>
        (child_draws name && child_draws summary && child_draws grade
         && nutrition_draws n && allergens_draws a && ingredients_draws i)%bool
    | _, _, _, _, _, _ => false
    end
  else true.

(** [new Date(item.timestamp || 0)]: an object or an array is converted to a
    primitive first. *)
Definition date_draws (t : option JSON) : bool :=
  match t with
  | Some w => if truthy t then primitive_ok w else true
  | None => true
  end.

(** One card of the history list. *)
Definition card_draws (item : JSON) : bool :=
  match member (Some item) "health_grade", member (Some item) "product_name",
        member (Some item) "timestamp" with
  | Some grade, Some name, Some t =>
      (child_draws grade && child_draws name && date_draws t)%bool
  | _, _, _ => false
  end.

(** The history section, [{history.length > 0 && (... history.map(card))}]. *)
Definition history_draws (h : JSON) : bool :=
  match member (Some h) "length" with
  | Some len =>
      match positive len with
      | None => false
      | Some false => true
      | Some true =>
          match h with
          | JArray l => forallb card_draws l
          | _ => false
          end
      end
  | None => false
  end.

(** The render of [st] returns. *)
Definition draws (st : State) : bool :=
  (result_draws (result st) && history_draws (history st))%bool.

(** A state reaches the screen only if its render returns. *)
Definition shown (x : option State) : option State :=
  match x with
  | Some st => if draws st then Some st else None
  | None => None
  end.

End Markup.

(** ** Events and the mount, with the render that follows *)

Section Live.

Variable JSON_parse : string -> option JSON.
Variable Number_gt0 : string -> bool.

(** One event; [None] also when the render of the new state throws and the
    tree is unmounted. *)
Definition live_step (e : Event) (st : State) : option State :=
  shown Number_gt0 (step JSON_parse e st).

(** The mount, through the render that follows the load effect. *)
Definition live_mount (saved : option string) : option State :=
  shown Number_gt0 (Some (mount JSON_parse saved)).

Fixpoint live_run (es : list Event) (st : State) : option State :=
  match es with
  | [] => Some st
  | e :: rest =>
      match live_step e st with
      | Some st' => live_run rest st'
      | None => None
      end
  end.

End Live.

(** ** The grade badge and the kinds of events *)

(** [getGradeColor]; [grade] is what [x.health_grade] evaluates to, [None]
    when the property is missing.  The [switch] compares with [===], so only
    a string can match a case. *)
Definition getGradeColor (grade : option JSON) : string :=
  match grade with
  | Some (JString g) =>
      if String.eqb g "A" then "bg-green-500"
      else if String.eqb g "B" then "bg-lime-500"
      else if String.eqb g "C" then "bg-yellow-500"
      else if String.eqb g "D" then "bg-orange-500"
      else if String.eqb g "E" then "bg-red-500"
      else "bg-gray-500"
  | _ => "bg-gray-500"
  end.

(** One of the five grades of [AnalysisResult.health_grade]. *)
Definition is_grade (grade : option JSON) : bool :=
  match grade with
  | Some (JString g) =>
      (String.eqb g "A" || String.eqb g "B" || String.eqb g "C"
       || String.eqb g "D" || String.eqb g "E")%bool
  | _ => false
  end.

(** The events of the camera controls and of [getUserMedia]. *)
Definition camera_event (e : Event) : bool :=
  match e with
  | CameraClicked | CameraSettled _ | CaptureClicked _ | CancelClicked => true
  | _ => false
  end.

(** The analyze button. *)
Definition starts_analysis (e : Event) : bool :=
  match e with
  | AnalyzeClicked => true
  | _ => false
  end.

(** The remote call settles. *)
Definition is_settlement (e : Event) : bool :=
  match e with
  | AnalysisSettled _ _ => true
  | _ => false
  end.

(** The events whose handler calls [setHistory]. *)
Definition mutates_history (e : Event) : bool :=
  match e with
  | AnalysisSettled (Responded _) _ => true
  | HistoryDeleteClicked _ => true
  | ClearHistoryClicked confirmed => confirmed
  | _ => false
  end.

(** The events whose handler calls [setImage]. *)
Definition changes_image (e : Event) : bool :=
  match e with
  | FileLoaded _ => true
  | CaptureClicked (Some _) => true
  | ClearImageClicked => true
  | _ => false
  end.

(** The events whose handler calls [setResult]. *)
Definition changes_result (e : Event) : bool :=
  match e with
  | AnalysisSettled (Responded _) _ => true
  | FileLoaded _ => true
  | CaptureClicked (Some _) => true
  | HistoryItemClicked _ => true
  | ClearImageClicked => true
  | _ => false
  end.

(** Camera mode is off, no preview is mounted and no track is running. *)
Definition camera_idle (st : State) : bool :=
  (negb (showCamera st) && negb (preview_shown st) && camera_released st)%bool.

(** ** Sample inputs

    Concrete texts, states and traces at which the properties below are
    exercised with the reference parser. *)

Module Samples.

Definition dquote : string := String (ascii_of_nat 34) EmptyString.

Definition quoted (s : string) : string := dquote ++ s ++ dquote.

(** [{"product_name":"Oat drink","health_grade":"A","timestamp":1}] *)
Definition good_response : string :=
  "{" ++ quoted "product_name" ++ ":" ++ quoted "Oat drink" ++ ","
      ++ quoted "health_grade" ++ ":" ++ quoted "A" ++ ","
      ++ quoted "timestamp" ++ ":1}".

(** A response cut short. *)
Definition malformed_response : string :=
  "{" ++ quoted "product_name" ++ ":".

Definition photo : string := "data:image/jpeg;base64,AAAA".

(** An earlier result, as it sits in the history. *)
Definition entry (now : Z) : JSON :=
  withTimestamp (JObject [("product_name", JString "Oat drink");
                          ("health_grade", JString "A")]) now.

Definition ten_entries : list JSON :=
  map entry [10; 9; 8; 7; 6; 5; 4; 3; 2; 1]%Z.

(** A session with a photo chosen, a result on screen and a full history. *)
Definition busy_session : State :=
  setHistory (JArray ten_entries)
    (setResult (entry 10) (setImage (Some photo) initialState)).

Definition eleven_numbers : string := "[1,2,3,4,5,6,7,8,9,10,11]".

(** A response with every field the markup reads. *)
Definition full_response : string :=
  "{" ++ quoted "product_name" ++ ":" ++ quoted "Oat drink" ++ ","
      ++ quoted "ingredients" ++ ":[" ++ quoted "water" ++ ","
      ++ quoted "oats" ++ "],"
      ++ quoted "nutrition" ++ ":{" ++ quoted "calories" ++ ":45,"
      ++ quoted "protein" ++ ":1," ++ quoted "carbohydrates" ++ ":7,"
      ++ quoted "sugar" ++ ":4," ++ quoted "fat" ++ ":1.5},"
      ++ quoted "allergens" ++ ":[" ++ quoted "gluten" ++ "],"
      ++ quoted "health_grade" ++ ":" ++ quoted "A" ++ ","
      ++ quoted "health_summary" ++ ":" ++ quoted "A light drink" ++ "}".

(** A snapshot of two entries: the first has every field, the second has
    no nutrition. *)
Definition mixed_snapshot : string :=
  "[" ++ full_response ++ "," ++ good_response ++ "]".

(** The camera is on and its stream, of one video track, is bound. *)
Definition camera_session : option State :=
  run JSONText.parse [CameraClicked; CameraSettled (Granted [Live])]
      (mount JSONText.parse None).

End Samples.

(** * Properties *)

(** ** Objects as ordered property lists *)

Lemma obj_get_replace (k : string) (v : JSON) (o : list (string * JSON)) :
  obj_has k o = true -> obj_get k (obj_replace k v o) = Some v.
Proof.
  unfold obj_has.
  induction o as [|[k' v'] rest IH]; simpl.
  - discriminate.
  - destruct (String.eqb k k') eqn:E; simpl; rewrite E; auto.
Qed.

Lemma obj_get_insert_index (n : N) (k : string) (v : JSON)
    (o : list (string * JSON)) :
  obj_get k (obj_insert_index n k v o) = Some v \/ obj_get k o <> None.
Proof.
  induction o as [|[k' v'] rest IH]; simpl.
  - rewrite String.eqb_refl. now left.
  - destruct (array_index k') as [m|].
    + destruct (m <? n)%N; simpl.
      * destruct (String.eqb k k'); [right; discriminate | exact IH].
      * rewrite String.eqb_refl. now left.
    + simpl. rewrite String.eqb_refl. now left.
Qed.

Lemma obj_get_app_new (k : string) (v : JSON) (o : list (string * JSON)) :
  obj_get k o = None -> obj_get k (o ++ [(k, v)]) = Some v.
Proof.
  induction o as [|[k' v'] rest IH]; simpl.
  - now rewrite String.eqb_refl.
  - destruct (String.eqb k k'); [discriminate | exact IH].
Qed.

Lemma obj_get_set (k : string) (v : JSON) (o : list (string * JSON)) :
  obj_get k (obj_set k v o) = Some v.
Proof.
  unfold obj_set.
  destruct (obj_has k o) eqn:H.
  - now apply obj_get_replace.
  - unfold obj_has in H.
    destruct (obj_get k o) eqn:G; [discriminate|].
    destruct (array_index k) as [n|].
    + destruct (obj_get_insert_index n k v o) as [E|E]; [exact E | congruence].
    + now apply obj_get_app_new.
Qed.

Lemma obj_get_In (k : string) (o : list (string * JSON)) :
  obj_get k o = None -> ~ In k (map fst o).
Proof.
  induction o as [|[k' v'] rest IH]; simpl; [tauto|].
  destruct (String.eqb k k') eqn:E; [discriminate|].
  intros G [H|H]; [|now apply IH].
  subst. now rewrite String.eqb_refl in E.
Qed.

Lemma obj_replace_keys (k : string) (v : JSON) (o : list (string * JSON)) :
  map fst (obj_replace k v o) = map fst o.
Proof.
  induction o as [|[k' v'] rest IH]; simpl; [reflexivity|].
  destruct (String.eqb k k'); simpl; congruence.
Qed.

Lemma obj_insert_index_In (n : N) (k : string) (v : JSON)
    (o : list (string * JSON)) (x : string) :
  In x (map fst (obj_insert_index n k v o)) <-> x = k \/ In x (map fst o).
Proof.
  induction o as [|[k' v'] rest IH]; simpl.
  - intuition congruence.
  - destruct (array_index k') as [m|]; [destruct (m <? n)%N|]; simpl;
      try rewrite IH; intuition congruence.
Qed.

Lemma obj_insert_index_NoDup (n : N) (k : string) (v : JSON)
    (o : list (string * JSON)) :
  ~ In k (map fst o) -> NoDup (map fst o) ->
  NoDup (map fst (obj_insert_index n k v o)).
Proof.
  induction o as [|[k' v'] rest IH]; simpl; intros Hk Hnd.
  - constructor; [tauto | constructor].
  - inversion Hnd as [|? ? Hk' Hrest]; subst.
    assert (Hcons : NoDup (k :: k' :: map fst rest))
      by (constructor; [simpl; tauto | exact Hnd]).
    destruct (array_index k') as [m|]; [destruct (m <? n)%N|]; simpl; auto.
    constructor.
    + rewrite obj_insert_index_In. intros [E|E]; [subst; tauto | tauto].
    + apply IH; tauto.
Qed.

Lemma obj_set_NoDup (k : string) (v : JSON) (o : list (string * JSON)) :
  NoDup (map fst o) -> NoDup (map fst (obj_set k v o)).
Proof.
  intro Hnd. unfold obj_set, obj_has.
  destruct (obj_get k o) eqn:G.
  - now rewrite obj_replace_keys.
  - pose proof (obj_get_In _ _ G) as Hk.
    destruct (array_index k) as [n|].
    + now apply obj_insert_index_NoDup.
    + rewrite map_app. simpl.
      apply NoDup_app; [exact Hnd | constructor; [tauto | constructor] |].
      intros x Hx [E|[]]. now subst.
Qed.

Lemma spread_NoDup (v : JSON) : NoDup (map fst (spread v)).
Proof.
  unfold spread.
  assert (H : forall ps o, NoDup (map fst o) ->
            NoDup (map fst (fold_left
              (fun o kv => obj_set (fst kv) (snd kv) o) ps o))).
  { induction ps as [|p ps IH]; simpl; intros o Ho; [exact Ho|].
    apply IH. now apply obj_set_NoDup. }
  apply H. constructor.
Qed.

(** ** Lists as the history uses them *)

Lemma filter_index_all {A : Type} (p : nat -> bool) (i : nat) (xs : list A) :
  (forall j, (i <= j < i + List.length xs)%nat -> p j = true) ->
  filter_index p i xs = xs.
Proof.
  revert i. induction xs as [|x rest IH]; simpl; intros i H; [reflexivity|].
  rewrite (H i) by lia. f_equal. apply IH. intros j Hj. apply H. lia.
Qed.

Lemma filter_index_remove {A : Type} (xs : list A) :
  forall (k i : nat), (i < List.length xs)%nat ->
  filter_index (fun j => negb (Z.of_nat j =? Z.of_nat (k + i))%Z) k xs
  = firstn i xs ++ skipn (S i) xs.
Proof.
  induction xs as [|x rest IH]; simpl; intros k i Hi; [lia|].
  destruct i as [|i].
  - replace (k + 0)%nat with k by lia. rewrite Z.eqb_refl. simpl.
    apply filter_index_all. intros j Hj.
    apply negb_true_iff, Z.eqb_neq. lia.
  - assert (E : (Z.of_nat k =? Z.of_nat (k + S i))%Z = false)
      by (apply Z.eqb_neq; lia).
    rewrite E. simpl. f_equal.
    replace (k + S i)%nat with (S k + i)%nat by lia.
    apply IH. lia.
Qed.

Lemma firstn_removelast {A : Type} (xs : list A) (n : nat) :
  List.length xs = S n -> firstn n xs = removelast xs.
Proof.
  revert n. induction xs as [|x rest IH]; intros n H; [discriminate|].
  simpl in H. injection H as H.
  destruct rest as [|y rest'].
  - simpl in H. subst. reflexivity.
  - destruct n as [|n]; [discriminate|].
    change (x :: firstn n (y :: rest') = x :: removelast (y :: rest')).
    f_equal. now apply IH.
Qed.

Lemma setHistory_same (st : State) : setHistory (history st) st = st.
Proof. now destruct st. Qed.

(** The handler has been reduced to one state: name it, then read each
    field off. *)
Ltac by_fields := eexists; split; [reflexivity|]; now repeat split.

Section Properties.

Variable JSON_parse : string -> option JSON.
Variable Number_gt0 : string -> bool.

Lemma analyzeProduct_resume_history (r : Remote) (now : Z) (st : State)
    (l : list JSON) :
  history st = JArray l ->
  exists st', analyzeProduct_resume JSON_parse r now st = Some st' /\
    (history st' = JArray l \/
     exists entry, history st' = JArray (firstn 10 (entry :: l))).
Proof.
  intro H. unfold analyzeProduct_resume.
  destruct r as [message|text].
  - eexists. split; [reflexivity|]. now left.
  - destruct (JSON_parse (text_or_default text)) as [data|].
    + unfold historyAppend. rewrite H. simpl iterate. cbv iota.
      eexists. split; [reflexivity|]. right.
      exists (withTimestamp data now). reflexivity.
    + eexists. split; [reflexivity|]. now left.
Qed.

(** C3. Starting from a history of at most 10 entries, every run of
    analysis settlements ends with a history of at most 10 entries; a
    successful one puts the new result at position 0, keeps the others
    behind it in order, and, when the history was full, drops its last
    entry. *)
Theorem history_never_exceeds_cap (st : State) (l : list JSON) :
  history st = JArray l ->
  (List.length l <= 10)%nat ->
  (forall rs, exists st' l',
      analyses JSON_parse rs st = Some st' /\ history st' = JArray l' /\
      (List.length l' <= 10)%nat)
  /\
  (forall text now data,
      JSON_parse (text_or_default text) = Some data ->
      exists st' l',
        analyzeProduct_resume JSON_parse (Responded text) now st = Some st' /\
        history st' = JArray l' /\
        nth_error l' 0 = Some (withTimestamp data now) /\
        ((List.length l < 10)%nat -> l' = withTimestamp data now :: l) /\
        (List.length l = 10%nat ->
           l' = withTimestamp data now :: removelast l)).
Proof.
  intros H Hlen. split.
  - intro rs. revert st l H Hlen.
    induction rs as [|[r now] rest IH]; intros st l H Hlen; simpl.
    + exists st, l. auto.
    + destruct (analyzeProduct_resume_history r now st l H)
        as (st' & E & [K | (entry & K)]); rewrite E.
      * now apply (IH st' l).
      * apply (IH st' _ K). apply firstn_le_length.
  - intros text now data P.
    unfold analyzeProduct_resume, historyAppend. rewrite P, H.
    simpl iterate. cbv iota.
    eexists. eexists. split; [reflexivity|].
    split; [reflexivity|]. split; [reflexivity|]. split.
    + intro Hlt. change (firstn 10 (withTimestamp data now :: l))
        with (withTimestamp data now :: firstn 9 l).
      now rewrite firstn_all2 by lia.
    + intro Heq. change (firstn 10 (withTimestamp data now :: l))
        with (withTimestamp data now :: firstn 9 l).
      f_equal. now apply firstn_removelast.
Qed.

(** C6. Deleting at a position inside the history removes exactly that
    entry: what is left is the entries before it followed by the entries
    after it, one fewer in all. *)
Theorem deleteHistoryItem_removes_one (st : State) (l : list JSON) (i : nat) :
  history st = JArray l ->
  (i < List.length l)%nat ->
  exists st',
    deleteHistoryItem (Z.of_nat i) st = Some st' /\
    history st' = JArray (firstn i l ++ skipn (S i) l) /\
    List.length (firstn i l ++ skipn (S i) l) = (List.length l - 1)%nat /\
    (forall j, (j < i)%nat ->
       nth_error (firstn i l ++ skipn (S i) l) j = nth_error l j) /\
    (forall j, (i <= j)%nat ->
       nth_error (firstn i l ++ skipn (S i) l) j = nth_error l (S j)).
Proof.
  intros H Hi. unfold deleteHistoryItem, historyRemove. rewrite H.
  eexists. split; [reflexivity|]. split.
  - simpl. f_equal. apply (filter_index_remove l 0 i Hi).
  - assert (Hf : List.length (firstn i l) = i)
      by (rewrite length_firstn; lia).
    split; [|split].
    + rewrite length_app, Hf, length_skipn. lia.
    + intros j Hj. rewrite nth_error_app1 by lia.
      rewrite nth_error_firstn.
      destruct (Nat.ltb_spec j i); [reflexivity | lia].
    + intros j Hj. rewrite nth_error_app2 by lia.
      rewrite Hf, nth_error_skipn. f_equal. lia.
Qed.

(** C10. Deleting at an index below zero or at or beyond the length leaves
    the whole state, and so the history, as it was; nothing is thrown. *)
Theorem deleteHistoryItem_out_of_range (st : State) (l : list JSON)
    (index : Z) :
  history st = JArray l ->
  (index < 0 \/ Z.of_nat (List.length l) <= index)%Z ->
  deleteHistoryItem index st = Some st.
Proof.
  intros H Hout. unfold deleteHistoryItem, historyRemove. rewrite H.
  rewrite filter_index_all.
  - rewrite <- H. now rewrite setHistory_same.
  - intros j Hj. apply negb_true_iff, Z.eqb_neq. lia.
Qed.

(** C7 (amended). Clicking the card of an entry that the results markup
    can draw, in a state whose history section is drawn, shows that entry as
    the result; the analyzer is not called again and the history is the same
    value as before. *)
Theorem select_history_entry (st : State) (idx : nat) (item : JSON) :
  nth_error (rendered_items st) idx = Some item ->
  result_draws Number_gt0 item = true ->
  history_draws Number_gt0 (history st) = true ->
  exists st',
    live_step JSON_parse Number_gt0 (HistoryItemClicked idx) st = Some st' /\
    result st' = item /\
    history st' = history st /\
    submitted st' = submitted st /\
    analyzing st' = analyzing st /\
    image st' = image st /\
    error st' = error st.
Proof.
  intros H Hr Hh. unfold live_step, step. rewrite H.
  unfold shown, draws. simpl. rewrite Hr, Hh. simpl.
  eexists. split; [reflexivity|]. now repeat split.
Qed.

(** C4. A file larger than 5 MiB is refused before any reader is started:
    the size message becomes the error, and the image, the result and the
    history stay as they were. *)
Theorem handleFileUpload_rejects_oversized (f : File) (st : State) :
  (5 * 1024 * 1024 < size f)%N ->
  handleFileUpload (Some f) st = (setError (Some FILE_TOO_LARGE) st, None) /\
  error (fst (handleFileUpload (Some f) st)) = Some FILE_TOO_LARGE /\
  image (fst (handleFileUpload (Some f) st)) = image st /\
  result (fst (handleFileUpload (Some f) st)) = result st /\
  history (fst (handleFileUpload (Some f) st)) = history st.
Proof.
  intro H. unfold handleFileUpload.
  apply N.ltb_lt in H. rewrite H. now repeat split.
Qed.

(** C5. After a successful analysis the stored result is an object whose
    [timestamp] is the clock value of that moment, whatever the response
    held, a [timestamp] of its own included; it has no second [timestamp]
    property, and the same object is entry 0 of the history. *)
Theorem analysis_timestamp_is_local (text : option string) (now : Z)
    (data : JSON) (st : State) (l : list JSON) :
  JSON_parse (text_or_default text) = Some data ->
  iterate (history st) = Some l ->
  exists st' props,
    analyzeProduct_resume JSON_parse (Responded text) now st = Some st' /\
    result st' = JObject props /\
    obj_get "timestamp" props = Some (JNumber (inject_Z now)) /\
    NoDup (map fst props) /\
    nth_error (rendered_items st') 0 = Some (JObject props).
Proof.
  intros P I. unfold analyzeProduct_resume, historyAppend.
  rewrite P, I.
  eexists. eexists. split; [reflexivity|].
  split; [reflexivity|]. split; [apply obj_get_set|].
  split; [apply obj_set_NoDup, spread_NoDup | reflexivity].
Qed.

(** The failure path leaves everything but the error, the flag and the
    console alone. *)
Lemma analyzeProduct_catch_frame (err : Thrown) (st : State) :
  error (analyzeProduct_catch err st) = Some ANALYSIS_FAILED /\
  result (analyzeProduct_catch err st) = result st /\
  history (analyzeProduct_catch err st) = history st /\
  image (analyzeProduct_catch err st) = image st /\
  analyzing (analyzeProduct_catch err st) = false.
Proof. now repeat split. Qed.

(** C1 (amended). A response text that is not empty and does not parse
    makes the analysis fail: the fixed message is the error, and the result,
    the history and the image are those from before the call. *)
Theorem analyzeProduct_malformed_json (img s : string) (now : Z)
    (st : State) :
  s <> "" ->
  JSON_parse s = None ->
  exists st',
    analyzeProduct JSON_parse img (Responded (Some s)) now st = Some st' /\
    error st' = Some ANALYSIS_FAILED /\
    result st' = result st /\
    history st' = history st /\
    image st' = image st /\
    analyzing st' = false.
Proof.
  intros Hne P. unfold analyzeProduct, analyzeProduct_resume.
  assert (E : text_or_default (Some s) = s).
  { unfold text_or_default, truthy_string.
    destruct (String.eqb_spec s ""); [contradiction | reflexivity]. }
  rewrite E, P. by_fields.
Qed.

(** C8 (amended). When the snapshot is absent, empty, or does not parse,
    the history starts empty and no error is shown; the failure is logged
    exactly when the snapshot is a non-empty string, an empty one being
    skipped without a parse. *)
Theorem mount_without_snapshot (saved : option string) :
  match saved with
  | Some s => s = "" \/ JSON_parse s = None
  | None => True
  end ->
  history (mount JSON_parse saved) = JArray [] /\
  error (mount JSON_parse saved) = None /\
  console (mount JSON_parse saved) =
    match saved with
    | Some s =>
        if String.eqb s "" then []
        else [LogError "Failed to parse history"]
    | None => []
    end.
Proof.
  destruct saved as [s|]; [|now repeat split].
  unfold mount, loadHistory, truthy_string.
  destruct (String.eqb_spec s "") as [E|E]; simpl.
  - now repeat split.
  - intros [H|H]; [contradiction|]. rewrite H. now repeat split.
Qed.

(** C9. A snapshot that parses to an array of more than 10 entries is
    stored as the history as it is, all entries kept; when its cards can be
    drawn the mounted component shows more than 10 of them; and a successful
    analysis on such a history cuts it to 10. *)
Theorem mount_restores_long_snapshot (s : string) (l : list JSON) :
  s <> "" ->
  JSON_parse s = Some (JArray l) ->
  (10 < List.length l)%nat ->
  history (loadHistory JSON_parse (Some s) initialState) = JArray l /\
  (history_draws Number_gt0 (JArray l) = true ->
   exists st,
     live_mount JSON_parse Number_gt0 (Some s) = Some st /\
     history st = JArray l /\
     (10 < List.length (rendered_items st))%nat) /\
  (forall st text now data,
      history st = JArray l ->
      JSON_parse (text_or_default text) = Some data ->
      exists st',
        analyzeProduct_resume JSON_parse (Responded text) now st = Some st' /\
        history st' = JArray (withTimestamp data now :: firstn 9 l) /\
        List.length (withTimestamp data now :: firstn 9 l) = 10%nat).
Proof.
  intros Hne P Hlen.
  assert (E : history (loadHistory JSON_parse (Some s) initialState)
              = JArray l).
  { unfold loadHistory, truthy_string.
    destruct (String.eqb_spec s ""); [contradiction|]. simpl.
    now rewrite P. }
  split; [exact E|]. split.
  - intro Hd.
    assert (Hh : history (mount JSON_parse (Some s)) = JArray l) by exact E.
    assert (Hr : result (mount JSON_parse (Some s)) = JNull).
    { unfold mount, loadHistory. destruct (truthy_string s); [|reflexivity].
      now destruct (JSON_parse s). }
    unfold live_mount, shown, draws. rewrite Hr, Hh, Hd. simpl.
    eexists. split; [reflexivity|]. split; [exact Hh|].
    unfold rendered_items. now rewrite Hh.
  - intros st text now data Hh Pd.
    unfold analyzeProduct_resume, historyAppend. rewrite Pd, Hh.
    simpl iterate. cbv iota.
    eexists. split; [reflexivity|]. split; [reflexivity|].
    change (S (List.length (firstn 9 l)) = 10%nat).
    rewrite length_firstn. lia.
Qed.

(** ** The camera stream *)

Lemma stop_tracks_released (s : MediaStream) :
  stream_released (stop_tracks s) = true.
Proof. induction s as [|t s IH]; simpl; auto. Qed.

Lemma stop_stream_nth (ss : list MediaStream) :
  forall (id : nat) (s : MediaStream),
  nth_error ss id = Some s ->
  nth_error (stop_stream id ss) id = Some (stop_tracks s).
Proof.
  induction ss as [|s0 rest IH]; intros [|id] s H; simpl in *;
    try discriminate.
  - now injection H as ->.
  - now apply IH.
Qed.

Lemma stop_stream_others (ss : list MediaStream) :
  forall (id j : nat), j <> id ->
  nth_error (stop_stream id ss) j = nth_error ss j.
Proof.
  induction ss as [|s0 rest IH]; intros [|id] [|j] H; simpl; auto;
    try congruence.
Qed.

(** C2 (amended). When the cancel or the capture handler runs while the
    video element holds a bound stream, every track of that stream is
    stopped, camera mode ends and the element is gone; a capture also stores
    the frame and clears the result.  Teardown runs no cleanup: the streams
    are what they were. *)
Theorem stopCamera_releases_bound_stream (st : State) (id : nat)
    (s : MediaStream) :
  showCamera st = true ->
  video st = Some (Some id) ->
  nth_error (streams st) id = Some s ->
  (exists st',
      step JSON_parse CancelClicked st = Some st' /\
      showCamera st' = false /\ video st' = None /\
      nth_error (streams st') id = Some (stop_tracks s) /\
      stream_released (stop_tracks s) = true)
  /\
  (forall dataUrl, exists st',
      step JSON_parse (CaptureClicked (Some dataUrl)) st = Some st' /\
      showCamera st' = false /\ video st' = None /\
      nth_error (streams st') id = Some (stop_tracks s) /\
      stream_released (stop_tracks s) = true /\
      image st' = Some dataUrl /\ result st' = JNull)
  /\
  streams (unmount st) = streams st.
Proof.
  intros Hshow Hvideo Hs.
  pose proof (stop_stream_nth _ _ _ Hs) as Hn.
  pose proof (stop_tracks_released s) as Hr.
  split; [|split].
  - unfold step. rewrite Hshow. unfold stopCamera. rewrite Hvideo.
    by_fields.
  - intro dataUrl. unfold step. rewrite Hshow.
    unfold capturePhoto, stopCamera.
    change (video (setImage (Some dataUrl) st)) with (video st).
    rewrite Hvideo. by_fields.
  - reflexivity.
Qed.

End Properties.

(** * The properties at concrete inputs *)

Import Samples.

Example parse_good_response :
  JSONText.parse good_response =
  Some (JObject [("product_name", JString "Oat drink");
                 ("health_grade", JString "A");
                 ("timestamp", JNumber (inject_Z 1))]).
Proof. vm_compute. reflexivity. Qed.

Example parse_rejects_empty_and_cut_text :
  JSONText.parse "" = None /\ JSONText.parse malformed_response = None.
Proof. split; vm_compute; reflexivity. Qed.

(** C1, counterexample. An empty response text is not valid JSON, yet the
    analysis does not fail: the text is replaced by an empty object, no
    error is set, a result holding only the timestamp is stored and the
    history grows by it.  A missing text behaves the same. *)
Lemma analyzeProduct_empty_response_not_a_failure :
  JSONText.parse "" = None /\
  (exists st',
     analyzeProduct JSONText.parse photo (Responded (Some "")) 1700
       busy_session = Some st' /\
     error st' = None /\
     result st' = JObject [("timestamp", JNumber (inject_Z 1700))] /\
     result st' <> result busy_session /\
     history st' =
       JArray (JObject [("timestamp", JNumber (inject_Z 1700))]
                 :: firstn 9 ten_entries) /\
     history st' <> history busy_session) /\
  analyzeProduct JSONText.parse photo (Responded None) 1700 busy_session =
  analyzeProduct JSONText.parse photo (Responded (Some "")) 1700 busy_session.
Proof.
  split; [vm_compute; reflexivity|]. split; [|reflexivity].
  eexists. split; [vm_compute; reflexivity|].
  repeat split; vm_compute; discriminate.
Qed.

(** C1 (amended), at a response cut short. *)
Lemma analyzeProduct_malformed_json_witness :
  malformed_response <> "" /\
  JSONText.parse malformed_response = None /\
  exists st',
    analyzeProduct JSONText.parse photo (Responded (Some malformed_response))
      1700 busy_session = Some st' /\
    error st' = Some ANALYSIS_FAILED /\
    result st' = result busy_session /\
    history st' = history busy_session /\
    image st' = image busy_session /\
    analyzing st' = false.
Proof.
  assert (Hne : malformed_response <> "")
    by (intro H; vm_compute in H; discriminate H).
  assert (Hp : JSONText.parse malformed_response = None)
    by (vm_compute; reflexivity).
  split; [exact Hne|]. split; [exact Hp|].
  exact (analyzeProduct_malformed_json JSONText.parse photo
           malformed_response 1700 busy_session Hne Hp).
Defined.

(** C2, counterexample. With the camera on and its stream bound, teardown
    removes the preview and leaves the track running.  And without any
    teardown: a cancel that comes before the permission is granted exits
    camera mode, and the stream granted afterwards is bound to nothing and
    never stopped. *)
Lemma camera_stream_left_running :
  (exists st,
     camera_session = Some st /\
     preview_shown st = true /\
     preview_shown (unmount st) = false /\
     streams (unmount st) = [[Live]] /\
     camera_released (unmount st) = false)
  /\
  (exists st,
     run JSONText.parse
       [CameraClicked; CancelClicked; CameraSettled (Granted [Live])]
       (mount JSONText.parse None) = Some st /\
     showCamera st = false /\
     preview_shown st = false /\
     streams st = [[Live]] /\
     camera_released st = false).
Proof.
  split; eexists; (split; [vm_compute; reflexivity|]); now repeat split.
Qed.

(** C2 (amended), at the session whose camera is on. *)
Lemma stopCamera_releases_bound_stream_witness :
  exists st,
    camera_session = Some st /\
    showCamera st = true /\
    video st = Some (Some 0%nat) /\
    nth_error (streams st) 0 = Some [Live] /\
    (exists st',
        step JSONText.parse CancelClicked st = Some st' /\
        showCamera st' = false /\ video st' = None /\
        streams st' = [[Ended]] /\ camera_released st' = true) /\
    (exists st',
        step JSONText.parse (CaptureClicked (Some photo)) st = Some st' /\
        showCamera st' = false /\ video st' = None /\
        image st' = Some photo /\ camera_released st' = true).
Proof.
  eexists. split; [vm_compute; reflexivity|].
  split; [reflexivity|]. split; [reflexivity|]. split; [reflexivity|].
  match goal with
  | |- (exists st', step _ _ ?st = _ /\ _) /\ _ =>
      destruct (stopCamera_releases_bound_stream JSONText.parse st 0 [Live]
                  eq_refl eq_refl eq_refl)
        as [(c & Hc & Hc1 & Hc2 & _) [Hp _]];
      destruct (Hp photo) as (p & Hp0 & Hp1 & Hp2 & _ & _ & Hp3 & _)
  end.
  split.
  - exists c. split; [exact Hc|]. split; [exact Hc1|]. split; [exact Hc2|].
    vm_compute in Hc. injection Hc as <-. now split.
  - exists p. split; [exact Hp0|]. split; [exact Hp1|]. split; [exact Hp2|].
    split; [exact Hp3|].
    vm_compute in Hp0. injection Hp0 as <-. reflexivity.
Defined.

(** C3, at a full history: three settlements, two of them successful. *)
Lemma history_never_exceeds_cap_witness :
  history busy_session = JArray ten_entries /\
  (List.length ten_entries <= 10)%nat /\
  (exists st' l',
      analyses JSONText.parse
        [(Responded (Some good_response), 11%Z);
         (Rejected "Failed to fetch", 12%Z);
         (Responded None, 13%Z)] busy_session = Some st' /\
      history st' = JArray l' /\ (List.length l' <= 10)%nat) /\
  (exists st' l',
      analyzeProduct_resume JSONText.parse (Responded (Some good_response))
        11 busy_session = Some st' /\
      history st' = JArray l' /\
      nth_error l' 0 = Some (entry 11) /\
      l' = entry 11 :: removelast ten_entries).
Proof.
  assert (Hlen : (List.length ten_entries <= 10)%nat) by (simpl; lia).
  split; [reflexivity|]. split; [exact Hlen|].
  destruct (history_never_exceeds_cap JSONText.parse busy_session
              ten_entries eq_refl Hlen) as [Hrun Hone].
  split; [apply Hrun|].
  destruct (Hone (Some good_response) 11%Z _ parse_good_response)
    as (st' & l' & E & Hh & Hn & _ & Hfull).
  exists st', l'. split; [exact E|]. split; [exact Hh|].
  split; [exact Hn|]. now apply Hfull.
Defined.

(** C4, at a file of 6 000 000 bytes. *)
Lemma handleFileUpload_rejects_oversized_witness :
  (5 * 1024 * 1024 < size (mkFile 6000000))%N /\
  handleFileUpload (Some (mkFile 6000000)) busy_session =
    (setError (Some FILE_TOO_LARGE) busy_session, None) /\
  error (fst (handleFileUpload (Some (mkFile 6000000)) busy_session)) =
    Some FILE_TOO_LARGE /\
  image (fst (handleFileUpload (Some (mkFile 6000000)) busy_session)) =
    Some photo /\
  result (fst (handleFileUpload (Some (mkFile 6000000)) busy_session)) =
    entry 10.
Proof.
  assert (H : (5 * 1024 * 1024 < size (mkFile 6000000))%N) by reflexivity.
  split; [exact H|].
  destruct (handleFileUpload_rejects_oversized (mkFile 6000000)
              busy_session H) as (E & He & Hi & Hr & _).
  now repeat split.
Defined.

(** C5, at a response that carries a [timestamp] of its own. *)
Lemma analysis_timestamp_is_local_witness :
  JSONText.parse (text_or_default (Some good_response)) =
    Some (JObject [("product_name", JString "Oat drink");
                   ("health_grade", JString "A");
                   ("timestamp", JNumber (inject_Z 1))]) /\
  iterate (history busy_session) = Some ten_entries /\
  exists st' props,
    analyzeProduct_resume JSONText.parse (Responded (Some good_response))
      1700 busy_session = Some st' /\
    result st' = JObject props /\
    obj_get "timestamp" props = Some (JNumber (inject_Z 1700)) /\
    NoDup (map fst props) /\
    nth_error (rendered_items st') 0 = Some (JObject props).
Proof.
  split; [exact parse_good_response|]. split; [reflexivity|].
  exact (analysis_timestamp_is_local JSONText.parse (Some good_response)
           1700 _ busy_session ten_entries parse_good_response eq_refl).
Defined.

(** C6, deleting the fourth of ten entries. *)
Lemma deleteHistoryItem_removes_one_witness :
  history busy_session = JArray ten_entries /\
  (3 < List.length ten_entries)%nat /\
  exists st',
    deleteHistoryItem 3 busy_session = Some st' /\
    history st' = JArray (map entry [10; 9; 8; 6; 5; 4; 3; 2; 1]%Z).
Proof.
  assert (Hi : (3 < List.length ten_entries)%nat) by (simpl; lia).
  split; [reflexivity|]. split; [exact Hi|].
  destruct (deleteHistoryItem_removes_one busy_session ten_entries 3
              eq_refl Hi) as (st' & E & Hh & _).
  exists st'. split; [exact E | exact Hh].
Defined.

(** C10, at the first index past the end and at a negative one. *)
Lemma deleteHistoryItem_out_of_range_witness :
  history busy_session = JArray ten_entries /\
  (10 < 0 \/ Z.of_nat (List.length ten_entries) <= 10)%Z /\
  deleteHistoryItem 10 busy_session = Some busy_session /\
  deleteHistoryItem (-1) busy_session = Some busy_session.
Proof.
  assert (Hhi : (10 < 0 \/ Z.of_nat (List.length ten_entries) <= 10)%Z)
    by (right; simpl; lia).
  assert (Hlo : (-1 < 0 \/ Z.of_nat (List.length ten_entries) <= -1)%Z)
    by (left; lia).
  split; [reflexivity|]. split; [exact Hhi|]. split.
  - exact (deleteHistoryItem_out_of_range busy_session ten_entries 10
             eq_refl Hhi).
  - exact (deleteHistoryItem_out_of_range busy_session ten_entries (-1)
             eq_refl Hlo).
Defined.

(** C7, counterexample. The second card of the mixed snapshot is on
    screen, its entry has no nutrition, and the click on it ends with the
    render throwing: the entry is not displayed. *)
Lemma select_entry_render_throws :
  exists st item,
    live_mount JSONText.parse NumberText.positive (Some mixed_snapshot)
      = Some st /\
    nth_error (rendered_items st) 1 = Some item /\
    member (Some item) "nutrition" = Some None /\
    result_draws NumberText.positive item = false /\
    live_step JSONText.parse NumberText.positive (HistoryItemClicked 1) st
      = None.
Proof.
  eexists. eexists. split; [vm_compute; reflexivity|].
  split; [reflexivity|]. now repeat split.
Qed.

(** C7 (amended), clicking the first card of the mixed snapshot. *)
Lemma select_history_entry_witness :
  exists st item,
    live_mount JSONText.parse NumberText.positive (Some mixed_snapshot)
      = Some st /\
    nth_error (rendered_items st) 0 = Some item /\
    result_draws NumberText.positive item = true /\
    history_draws NumberText.positive (history st) = true /\
    exists st',
      live_step JSONText.parse NumberText.positive (HistoryItemClicked 0) st
        = Some st' /\
      result st' = item /\
      history st' = history st /\
      submitted st' = submitted st.
Proof.
  eexists. eexists. split; [vm_compute; reflexivity|].
  split; [reflexivity|].
  match goal with
  | |- result_draws _ ?item = true /\ history_draws _ (history ?st) = true
       /\ _ =>
      assert (Hr : result_draws NumberText.positive item = true)
        by (vm_compute; reflexivity);
      assert (Hh : history_draws NumberText.positive (history st) = true)
        by (vm_compute; reflexivity);
      split; [exact Hr|]; split; [exact Hh|];
      destruct (select_history_entry JSONText.parse NumberText.positive
                  st 0 item eq_refl Hr Hh)
        as (st' & E & A & B & C & _)
  end.
  exists st'. now repeat split.
Defined.

(** C8, counterexample. An empty-string snapshot does not parse, the
    history starts empty, and nothing is logged: the effect skips it before
    any parse. *)
Lemma mount_empty_snapshot_not_logged :
  JSONText.parse "" = None /\
  history (mount JSONText.parse (Some "")) = JArray [] /\
  error (mount JSONText.parse (Some "")) = None /\
  console (mount JSONText.parse (Some "")) = [].
Proof. split; [vm_compute; reflexivity | now repeat split]. Qed.

(** C8 (amended), at a snapshot cut short. *)
Lemma mount_without_snapshot_witness :
  (malformed_response = "" \/ JSONText.parse malformed_response = None) /\
  history (mount JSONText.parse (Some malformed_response)) = JArray [] /\
  error (mount JSONText.parse (Some malformed_response)) = None /\
  console (mount JSONText.parse (Some malformed_response)) =
    [LogError "Failed to parse history"].
Proof.
  assert (H : malformed_response = "" \/
              JSONText.parse malformed_response = None)
    by (right; vm_compute; reflexivity).
  split; [exact H|].
  exact (mount_without_snapshot JSONText.parse (Some malformed_response) H).
Defined.

(** C9, at a snapshot of eleven numbers. *)
Lemma mount_restores_long_snapshot_witness :
  eleven_numbers <> "" /\
  JSONText.parse eleven_numbers =
    Some (JArray (map (fun z => JNumber (inject_Z z))
                      [1; 2; 3; 4; 5; 6; 7; 8; 9; 10; 11]%Z)) /\
  (10 < 11)%nat /\
  history (loadHistory JSONText.parse (Some eleven_numbers) initialState) =
    JArray (map (fun z => JNumber (inject_Z z))
                [1; 2; 3; 4; 5; 6; 7; 8; 9; 10; 11]%Z) /\
  exists st,
    live_mount JSONText.parse NumberText.positive (Some eleven_numbers)
      = Some st /\
    (10 < List.length (rendered_items st))%nat /\
    exists st',
      analyzeProduct_resume JSONText.parse (Responded (Some good_response))
        1700 st = Some st' /\
      List.length (rendered_items st') = 10%nat.
Proof.
  assert (Hne : eleven_numbers <> "") by discriminate.
  assert (Hp : JSONText.parse eleven_numbers =
               Some (JArray (map (fun z => JNumber (inject_Z z))
                               [1; 2; 3; 4; 5; 6; 7; 8; 9; 10; 11]%Z)))
    by (vm_compute; reflexivity).
  assert (Hlen : (10 < 11)%nat) by lia.
  split; [exact Hne|]. split; [exact Hp|]. split; [exact Hlen|].
  destruct (mount_restores_long_snapshot JSONText.parse NumberText.positive
              eleven_numbers _ Hne Hp Hlen) as (Hh & Hshown & Hnext).
  split; [exact Hh|].
  destruct (Hshown ltac:(vm_compute; reflexivity)) as (st & Hm & Hst & Hr).
  exists st. split; [exact Hm|]. split; [exact Hr|].
  destruct (Hnext st (Some good_response) 1700%Z _ Hst parse_good_response)
    as (st' & E & Hh' & Hl).
  exists st'. split; [exact E|].
  unfold rendered_items. rewrite Hh'. exact Hl.
Defined.

(** * Further properties of the handlers *)

(** ** The grade badge *)

Ltac split_grade s :=
  destruct (String.eqb_spec s "A"); [subst s|];
  [|destruct (String.eqb_spec s "B"); [subst s|];
    [|destruct (String.eqb_spec s "C"); [subst s|];
      [|destruct (String.eqb_spec s "D"); [subst s|];
        [|destruct (String.eqb_spec s "E"); [subst s|]]]]].

(** X1. The badge colour tells the grade: a value that is one of the five
    grades gets a colour that no other value gets, and every value that is
    not a grade (another string, a number, a missing field) gets the gray
    fallback. *)
Theorem getGradeColor_identifies_grade (g1 g2 : option JSON) :
  is_grade g1 = true ->
  (getGradeColor g1 = getGradeColor g2 -> g1 = g2) /\
  getGradeColor g1 <> "bg-gray-500" /\
  (is_grade g2 = false -> getGradeColor g2 = "bg-gray-500").
Proof.
  destruct g1 as [[| | |s1| |]|]; try discriminate.
  unfold is_grade, getGradeColor.
  split_grade s1; simpl; try discriminate; intros _;
    (split; [|split; [discriminate|]]);
    try (destruct g2 as [[| | |s2| |]|]; try discriminate;
         split_grade s2; simpl; intro; try discriminate; reflexivity);
    destruct g2 as [[| | |s2| |]|]; try reflexivity;
    split_grade s2; simpl; intro; try discriminate; reflexivity.
Qed.

Section Extras.

Variable JSON_parse : string -> option JSON.

Lemma step_inv (st' : State) (x : option State) :
  option_map render x = Some st' ->
  exists st1, x = Some st1 /\ st' = render st1.
Proof.
  destruct x as [st1|]; simpl; [|discriminate].
  intro H. injection H as <-. now exists st1.
Qed.

Ltac open_handlers :=
  unfold analyzeProduct_resume, analyzeProduct_catch, analyzeProduct_start,
    historyAppend, handleFileUpload, reader_onloadend, startCamera_start,
    startCamera_resume, capturePhoto, stopCamera, deleteHistoryItem,
    historyRemove, historyItem_onClick, clearHistory_onClick,
    clearImage_onClick in *.

Ltac break_match :=
  repeat match goal with
         | H : Some _ = Some _ |- _ => injection H as <-
         | H : Some _ = None |- _ => discriminate H
         | H : None = Some _ |- _ => discriminate H
         | H : context [match ?x with _ => _ end] |- _ =>
             destruct x eqn:?; simpl in H
         | |- context [match ?x with _ => _ end] => destruct x eqn:?; simpl
         end.

(** One step, event by event and branch by branch of its handler; the
    state after it is the rendered state of the handler. *)
Ltac step_cases e H :=
  unfold step in H;
  apply step_inv in H;
  let st1 := fresh "st1" in
  destruct H as (st1 & H & ->);
  destruct e; open_handlers; simpl in *; break_match; simpl in *.

(** ** What each kind of event leaves alone *)

Lemma history_untouched_step (e : Event) (st st' : State) :
  mutates_history e = false ->
  step JSON_parse e st = Some st' ->
  history st' = history st.
Proof.
  intros Hm H. step_cases e H; congruence.
Qed.

(** X2. The history is changed by three handlers only: a settled analysis
    that got a response, the delete button of a card, and a confirmed
    clear.  Every other event, a failed remote call included, leaves it the
    same value. *)
Theorem history_changed_only_by_its_handlers (e : Event) (st st' : State) :
  mutates_history e = false ->
  step JSON_parse e st = Some st' ->
  history st' = history st.
Proof.
  intros Hm H. step_cases e H; congruence.
Qed.

(** X3. The current image is changed by three handlers only: the end of a
    file read, a capture that got a frame, and the discard button.  An
    analysis, whatever its outcome, and every history action leave it as it
    is. *)
Theorem image_changed_only_by_its_handlers (e : Event) (st st' : State) :
  changes_image e = false ->
  step JSON_parse e st = Some st' ->
  image st' = image st.
Proof.
  intros Hm H. step_cases e H; congruence.
Qed.

(** X4. An error message stays on screen until the analyze button is
    pressed: every other event keeps the message or replaces it by one of
    the three fixed messages, and never clears it. *)
Theorem error_cleared_only_by_analyze (e : Event) (st st' : State) :
  starts_analysis e = false ->
  step JSON_parse e st = Some st' ->
  (error st' = error st \/
   error st' = Some ANALYSIS_FAILED \/
   error st' = Some FILE_TOO_LARGE \/
   error st' = Some CAMERA_DENIED) /\
  (error st <> None -> error st' <> None).
Proof.
  intros Hm H. step_cases e H; try discriminate;
    (split; [tauto | try tauto; try discriminate]).
Qed.

Lemma in_flight_step (e : Event) (st st' : State) :
  analyzing st = true ->
  is_settlement e = false ->
  step JSON_parse e st = Some st' ->
  analyzing st' = true /\ submitted st' = submitted st.
Proof.
  intros Ha Hm H. step_cases e H; try discriminate; try (now split).
  all: rewrite Ha in *; rewrite ?andb_false_r in *; discriminate.
Qed.

(** X5. While an analysis is in flight no second one can be started: in any
    run of events without a settlement, from a state whose [analyzing] flag
    is set, the flag stays set and no image is submitted to the analyzer. *)
Theorem no_second_analysis_in_flight (es : list Event) (st st' : State) :
  analyzing st = true ->
  forallb (fun e => negb (is_settlement e)) es = true ->
  run JSON_parse es st = Some st' ->
  analyzing st' = true /\ submitted st' = submitted st.
Proof.
  revert st. induction es as [|e rest IH]; simpl; intros st Ha Hes H.
  - injection H as <-. now split.
  - apply andb_true_iff in Hes. destruct Hes as [He Hrest].
    apply negb_true_iff in He.
    destruct (step JSON_parse e st) as [st1|] eqn:E; [|discriminate].
    destruct (in_flight_step e st st1 Ha He E) as [Ha1 Hs1].
    destruct (IH st1 Ha1 Hrest H) as [Ha' Hs']. split; congruence.
Qed.

(** ** The history across whole runs *)

Lemma filter_index_length {A : Type} (p : nat -> bool) (xs : list A) :
  forall i, (List.length (filter_index p i xs) <= List.length xs)%nat.
Proof.
  induction xs as [|x rest IH]; simpl; intro i; [lia|].
  destruct (p i); simpl; specialize (IH (S i)); lia.
Qed.

Lemma capped_step (e : Event) (st st' : State) (l : list JSON) :
  history st = JArray l ->
  (List.length l <= 10)%nat ->
  step JSON_parse e st = Some st' ->
  exists l', history st' = JArray l' /\ (List.length l' <= 10)%nat.
Proof.
  intros Hh Hlen H.
  destruct (mutates_history e) eqn:Hm.
  - destruct e; try discriminate; unfold step in H;
      apply step_inv in H; destruct H as (st1 & H & ->).
    + destruct (analyzeProduct_resume_history JSON_parse r now st l Hh)
        as (st2 & E & [K | (entry & K)]);
        rewrite E in H; injection H as <-.
      * now exists l.
      * eexists. split; [exact K|]. apply firstn_le_length.
    + destruct (nth_error (rendered_items st) idx); [|discriminate].
      unfold deleteHistoryItem, historyRemove in H. rewrite Hh in H.
      injection H as <-. eexists. split; [reflexivity|].
      pose proof (filter_index_length
                    (fun i => negb (Z.of_nat i =? Z.of_nat idx)%Z) l 0).
      lia.
    + destruct (rendered_items st); [discriminate|].
      injection H as <-. simpl in Hm. subst confirmed.
      exists []. split; [reflexivity | simpl; lia].
  - exists l. split; [|exact Hlen].
    rewrite (history_untouched_step e st st' Hm H).
    exact Hh.
Qed.

(** X6. The cap holds across everything the user can do, not only across
    appends: from a history that is an array of at most 10 entries, every
    run of events ends with a history that is an array of at most 10
    entries, and there the handler of no settlement throws in the history
    updater. *)
Theorem history_capped_in_every_run (es : list Event) (st st' : State)
    (l : list JSON) :
  history st = JArray l ->
  (List.length l <= 10)%nat ->
  run JSON_parse es st = Some st' ->
  (exists l', history st' = JArray l' /\ (List.length l' <= 10)%nat) /\
  (forall r now, exists st'',
      analyzeProduct_resume JSON_parse r now st' = Some st'').
Proof.
  revert st l. induction es as [|e rest IH]; simpl; intros st l Hh Hlen H.
  - injection H as <-. split; [now exists l|].
    intros r now.
    destruct (analyzeProduct_resume_history JSON_parse r now st l Hh)
      as (st2 & E & _).
    now exists st2.
  - destruct (step JSON_parse e st) as [st1|] eqn:E; [|discriminate].
    destruct (capped_step e st st1 l Hh Hlen E) as (l1 & Hh1 & Hlen1).
    exact (IH st1 l1 Hh1 Hlen1 H).
Qed.

Lemma poisoned_step (e : Event) (st st' : State) :
  iterate (history st) = None ->
  step JSON_parse e st = Some st' ->
  history st' = history st.
Proof.
  intros Hi H.
  destruct (mutates_history e) eqn:Hm;
    [|exact (history_untouched_step e st st' Hm H)].
  assert (Hr : rendered_items st = []).
  { unfold rendered_items. destruct (history st); try reflexivity.
    discriminate. }
  destruct e; try discriminate; unfold step in H;
    apply step_inv in H; destruct H as (st1 & H & ->).
  - destruct r as [message|text]; [discriminate|].
    unfold analyzeProduct_resume, historyAppend in H. rewrite Hi in H.
    destruct (JSON_parse (text_or_default text)); [discriminate|].
    now injection H as <-.
  - rewrite Hr in H. now destruct idx.
  - now rewrite Hr in H.
Qed.

(** X8. Clearing the history is gated by the confirmation: confirmed, it
    empties the history, keeps the displayed result and the image, and
    leaves no card to click or delete and no clear button; declined, it
    changes nothing of the history. *)
Theorem clearHistory_gated_by_confirmation (st : State) :
  rendered_items st <> [] ->
  (exists st',
      step JSON_parse (ClearHistoryClicked true) st = Some st' /\
      history st' = JArray [] /\
      result st' = result st /\ image st' = image st /\
      (forall idx,
          step JSON_parse (HistoryItemClicked idx) st' = None /\
          step JSON_parse (HistoryDeleteClicked idx) st' = None) /\
      (forall c, step JSON_parse (ClearHistoryClicked c) st' = None))
  /\
  (exists st',
      step JSON_parse (ClearHistoryClicked false) st = Some st' /\
      history st' = history st).
Proof.
  intro Hne. unfold step at 1 5.
  destruct (rendered_items st) as [|x rest]; [contradiction|].
  split.
  - eexists. split; [reflexivity|]. repeat split.
    + unfold step. simpl. now destruct idx.
    + unfold step. simpl. now destruct idx.
  - eexists. split; reflexivity.
Qed.

(** X9. A file of at most 5 MiB, the limit itself included, is accepted:
    choosing it changes nothing yet, and when its read ends the image is
    what the reader produced and the result is cleared, while the history
    and an error message already on screen stay. *)
Theorem upload_within_limit (f : File) (readerResult : option string)
    (st : State) :
  (size f <= 5 * 1024 * 1024)%N ->
  handleFileUpload (Some f) st = (st, Some f) /\
  exists st',
    run JSON_parse [FileChosen (Some f); FileLoaded readerResult] st
      = Some st' /\
    image st' = readerResult /\
    result st' = JNull /\
    history st' = history st /\
    error st' = error st /\
    analyzing st' = analyzing st.
Proof.
  intro H.
  assert (E : handleFileUpload (Some f) st = (st, Some f)).
  { unfold handleFileUpload.
    destruct (N.ltb_spec (5 * 1024 * 1024) (size f)); [lia | reflexivity]. }
  split; [exact E|].
  unfold run, step. rewrite E. simpl.
  eexists. split; [reflexivity|]. now repeat split.
Qed.

(** ** The fields of a response *)

Lemma obj_get_replace_other (k k' : string) (v : JSON)
    (o : list (string * JSON)) :
  k <> k' -> obj_get k (obj_replace k' v o) = obj_get k o.
Proof.
  intro Hk. induction o as [|[k0 v0] rest IH]; simpl; [reflexivity|].
  destruct (String.eqb_spec k' k0) as [->|]; simpl.
  - destruct (String.eqb_spec k k0); [contradiction | reflexivity].
  - now rewrite IH.
Qed.

Lemma obj_get_insert_index_other (n : N) (k k' : string) (v : JSON)
    (o : list (string * JSON)) :
  k <> k' -> obj_get k (obj_insert_index n k' v o) = obj_get k o.
Proof.
  intro Hk.
  assert (E : forall o', obj_get k ((k', v) :: o') = obj_get k o').
  { intro o'. simpl. destruct (String.eqb_spec k k'); [contradiction|].
    reflexivity. }
  induction o as [|[k0 v0] rest IH]; [apply E|].
  simpl obj_insert_index.
  destruct (array_index k0) as [m|]; [destruct (m <? n)%N|]; try apply E.
  simpl. now rewrite IH.
Qed.

Lemma obj_get_app_other (k k' : string) (v : JSON)
    (o : list (string * JSON)) :
  k <> k' -> obj_get k (o ++ [(k', v)]) = obj_get k o.
Proof.
  intro Hk. induction o as [|[k0 v0] rest IH]; simpl.
  - destruct (String.eqb_spec k k'); [contradiction | reflexivity].
  - now rewrite IH.
Qed.

Lemma obj_get_set_other (k k' : string) (v : JSON)
    (o : list (string * JSON)) :
  k <> k' -> obj_get k (obj_set k' v o) = obj_get k o.
Proof.
  intro Hk. unfold obj_set.
  destruct (obj_has k' o).
  - now apply obj_get_replace_other.
  - destruct (array_index k').
    + now apply obj_get_insert_index_other.
    + now apply obj_get_app_other.
Qed.

Lemma obj_get_absent (k : string) (o : list (string * JSON)) :
  ~ In k (map fst o) -> obj_get k o = None.
Proof.
  induction o as [|[k0 v0] rest IH]; simpl; [reflexivity|].
  intro H. destruct (String.eqb_spec k k0); [subst; tauto|].
  apply IH. tauto.
Qed.

Lemma obj_get_fold_set (k : string) (ps : list (string * JSON)) :
  NoDup (map fst ps) ->
  forall acc,
  obj_get k (fold_left (fun o kv => obj_set (fst kv) (snd kv) o) ps acc) =
  match obj_get k ps with
  | Some v => Some v
  | None => obj_get k acc
  end.
Proof.
  induction ps as [|[k0 v0] rest IH]; simpl; intros Hnd acc; [reflexivity|].
  inversion Hnd as [|? ? Hk0 Hrest]; subst.
  rewrite (IH Hrest).
  destruct (String.eqb_spec k k0) as [->|Hne].
  - rewrite (obj_get_absent k0 rest Hk0). apply obj_get_set.
  - destruct (obj_get k rest); [reflexivity|].
    now apply obj_get_set_other.
Qed.

(** X12. The parse is taken as it comes: when the response is an object,
    every field of it other than [timestamp] is in the stored result with
    the value the service sent, and a field the service did not send is not
    in the stored result either. *)
Theorem analysis_keeps_response_fields (text : option string) (now : Z)
    (props : list (string * JSON)) (st : State) (l : list JSON)
    (k : string) :
  JSON_parse (text_or_default text) = Some (JObject props) ->
  NoDup (map fst props) ->
  iterate (history st) = Some l ->
  k <> "timestamp" ->
  exists st' props',
    analyzeProduct_resume JSON_parse (Responded text) now st = Some st' /\
    result st' = JObject props' /\
    obj_get k props' = obj_get k props.
Proof.
  intros P Hnd Hi Hk. unfold analyzeProduct_resume, historyAppend.
  rewrite P, Hi.
  eexists. eexists. split; [reflexivity|]. split; [reflexivity|].
  rewrite obj_get_set_other by exact Hk.
  unfold spread. simpl own_props.
  rewrite (obj_get_fold_set k props Hnd). simpl.
  now destruct (obj_get k props).
Qed.

(** ** The camera across whole runs *)

Lemma run_cons (e : Event) (es : list Event) (st : State) :
  run JSON_parse (e :: es) st =
  match step JSON_parse e st with
  | Some st' => run JSON_parse es st'
  | None => None
  end.
Proof. reflexivity. Qed.

Lemma run_app (es1 es2 : list Event) (st : State) :
  run JSON_parse (es1 ++ es2) st =
  match run JSON_parse es1 st with
  | Some mid => run JSON_parse es2 mid
  | None => None
  end.
Proof.
  revert st. induction es1 as [|e rest IH]; simpl; intro st; [reflexivity|].
  destruct (step JSON_parse e st); [apply IH | reflexivity].
Qed.

Lemma camera_frame_step (e : Event) (st st' : State) :
  camera_event e = false ->
  step JSON_parse e st = Some st' ->
  showCamera st' = showCamera st /\ streams st' = streams st /\
  video st' = video (render st).
Proof.
  intros Hc H. step_cases e H; try discriminate; try congruence;
    now repeat split.
Qed.

Lemma camera_frame_run (es : list Event) :
  forall st st',
  video (render st) = video st ->
  forallb (fun e => negb (camera_event e)) es = true ->
  run JSON_parse es st = Some st' ->
  showCamera st' = showCamera st /\ streams st' = streams st /\
  video st' = video st.
Proof.
  induction es as [|e rest IH]; simpl; intros st st' Hr Hes H.
  - injection H as <-. now repeat split.
  - apply andb_true_iff in Hes. destruct Hes as [He Hrest].
    apply negb_true_iff in He.
    destruct (step JSON_parse e st) as [st1|] eqn:E; [|discriminate].
    destruct (camera_frame_step e st st1 He E) as (Hs & Hss & Hv).
    assert (Hv1 : video st1 = video st) by (rewrite Hv; exact Hr).
    assert (Hr1 : video (render st1) = video st1).
    { unfold render. simpl. rewrite Hs, Hv1. exact Hr. }
    destruct (IH st1 st' Hr1 Hrest H) as (Hs' & Hss' & Hv').
    repeat split; congruence.
Qed.

Lemma stop_stream_last (ss : list MediaStream) (s : MediaStream) :
  stop_stream (List.length ss) (ss ++ [s]) = ss ++ [stop_tracks s].
Proof. induction ss as [|s0 rest IH]; simpl; congruence. Qed.

Lemma camera_idle_inv (st : State) :
  camera_idle st = true ->
  showCamera st = false /\ video st = None /\ camera_released st = true.
Proof.
  unfold camera_idle, preview_shown. intro H.
  apply andb_true_iff in H. destruct H as [H H3].
  apply andb_true_iff in H. destruct H as [H1 H2].
  apply negb_true_iff in H1. destruct (video st); [discriminate|].
  now repeat split.
Qed.

(** The camera is on with [x] as the [srcObject] of its element. *)
Lemma camera_on_run (es : list Event) (st st' : State)
    (x : option nat) :
  showCamera st = true -> video st = Some x ->
  forallb (fun e => negb (camera_event e)) es = true ->
  run JSON_parse es st = Some st' ->
  showCamera st' = true /\ video st' = Some x /\ streams st' = streams st.
Proof.
  intros Hs Hv Hes H.
  assert (Hr : video (render st) = video st)
    by (unfold render; simpl; now rewrite Hs, Hv).
  destruct (camera_frame_run es st st' Hr Hes H) as (A & B & C).
  repeat split; congruence.
Qed.

Lemma camera_granted_on (s : MediaStream) (st : State) (x : option nat) :
  showCamera st = true -> video st = Some x ->
  exists st',
    step JSON_parse (CameraSettled (Granted s)) st = Some st' /\
    showCamera st' = true /\
    video st' = Some (Some (List.length (streams st))) /\
    streams st' = streams st ++ [s].
Proof.
  intros Hs Hv. unfold step, startCamera_resume. simpl. rewrite Hv.
  eexists. split; [reflexivity|]. simpl. rewrite Hs. now repeat split.
Qed.

Lemma camera_exit_bound (fin : Event) (st st' : State) (id : nat) :
  showCamera st = true -> video st = Some (Some id) ->
  (fin = CancelClicked \/ exists url, fin = CaptureClicked (Some url)) ->
  step JSON_parse fin st = Some st' ->
  showCamera st' = false /\ video st' = None /\
  streams st' = stop_stream id (streams st).
Proof.
  intros Hs Hv [->|[url ->]] H; unfold step in H; rewrite Hs in H;
    unfold capturePhoto, stopCamera in H; simpl in H; rewrite Hv in H;
    injection H as <-; now repeat split.
Qed.

(** X13. The ordinary camera session gives the camera back.  From a state
    with camera mode off and no track running: the camera button, then the
    grant of a stream, then cancel or a capture that got a frame, with any
    events of the other controls in between, end with camera mode off, no
    preview, and every track of the granted stream stopped. *)
Theorem camera_session_releases_stream (es1 es2 : list Event)
    (s : MediaStream) (fin : Event) (st st' : State) :
  camera_idle st = true ->
  forallb (fun e => negb (camera_event e)) es1 = true ->
  forallb (fun e => negb (camera_event e)) es2 = true ->
  (fin = CancelClicked \/ exists url, fin = CaptureClicked (Some url)) ->
  run JSON_parse
    (CameraClicked :: es1 ++ CameraSettled (Granted s) :: es2 ++ [fin]) st
    = Some st' ->
  camera_idle st' = true /\
  streams st' = streams st ++ [stop_tracks s].
Proof.
  intros Hidle H1 H2 Hfin H.
  destruct (camera_idle_inv st Hidle) as (Hs & Hv & Hrel).
  change (run JSON_parse (es1 ++ CameraSettled (Granted s) :: es2 ++ [fin])
            (render (startCamera_start st)) = Some st') in H.
  rewrite run_app in H.
  assert (Hs1 : showCamera (render (startCamera_start st)) = true)
    by reflexivity.
  assert (Hv1 : video (render (startCamera_start st)) = Some None)
    by (simpl; now rewrite Hv).
  destruct (run JSON_parse es1 (render (startCamera_start st)))
    as [st2|] eqn:E1; [|discriminate].
  destruct (camera_on_run es1 _ st2 None Hs1 Hv1 H1 E1)
    as (Hs2 & Hv2 & Hss2).
  simpl in Hss2.
  destruct (camera_granted_on s st2 None Hs2 Hv2)
    as (st3 & E3 & Hs3 & Hv3 & Hss3).
  rewrite run_cons, E3, run_app in H.
  destruct (run JSON_parse es2 st3) as [st4|] eqn:E4; [|discriminate].
  destruct (camera_on_run es2 st3 st4 _ Hs3 Hv3 H2 E4)
    as (Hs4 & Hv4 & Hss4).
  rewrite run_cons in H.
  destruct (step JSON_parse fin st4) as [st5|] eqn:E5; [|discriminate].
  injection H as <-.
  destruct (camera_exit_bound fin st4 st5 _ Hs4 Hv4 Hfin E5)
    as (Hs5 & Hv5 & Hss5).
  assert (Hst : streams st5 = streams st ++ [stop_tracks s]).
  { rewrite Hss5, Hss4, Hss3, Hss2. apply stop_stream_last. }
  split; [|exact Hst].
  unfold camera_idle, preview_shown, camera_released.
  rewrite Hs5, Hv5, Hst, forallb_app. simpl.
  unfold camera_released in Hrel. rewrite Hrel.
  now rewrite stop_tracks_released.
Qed.

(** X14. A refused camera leaves no stream behind.  From a state with
    camera mode off and no track running: the camera button, then the
    refusal, with any events of the other controls in between, end with
    camera mode off, no preview, the streams as they were, and the camera
    message as the error. *)
Theorem camera_denied_leaves_no_stream (es1 : list Event) (st st' : State) :
  camera_idle st = true ->
  forallb (fun e => negb (camera_event e)) es1 = true ->
  run JSON_parse (CameraClicked :: es1 ++ [CameraSettled Denied]) st
    = Some st' ->
  camera_idle st' = true /\
  streams st' = streams st /\
  error st' = Some CAMERA_DENIED.
Proof.
  intros Hidle H1 H.
  destruct (camera_idle_inv st Hidle) as (Hs & Hv & Hrel).
  change (run JSON_parse (es1 ++ [CameraSettled Denied])
            (render (startCamera_start st)) = Some st') in H.
  rewrite run_app in H.
  assert (Hs1 : showCamera (render (startCamera_start st)) = true)
    by reflexivity.
  assert (Hv1 : video (render (startCamera_start st)) = Some None)
    by (simpl; now rewrite Hv).
  destruct (run JSON_parse es1 (render (startCamera_start st)))
    as [st2|] eqn:E1; [|discriminate].
  destruct (camera_on_run es1 _ st2 None Hs1 Hv1 H1 E1)
    as (Hs2 & Hv2 & Hss2).
  simpl in Hss2. simpl in H. injection H as <-.
  split; [|split; [exact Hss2 | reflexivity]].
  unfold camera_idle, preview_shown, camera_released. simpl.
  rewrite Hss2. exact Hrel.
Qed.

(** X15. Pressing the camera button while the camera is already on leaks
    the first stream: the stream granted to the second request takes the
    place of the first as the source of the preview, and cancel then stops
    the tracks of the second only; the first is left as it was, with camera
    mode off and no preview. *)
Theorem second_camera_start_orphans_first (s : MediaStream) (st : State)
    (id : nat) (s0 : MediaStream) :
  video st = Some (Some id) ->
  nth_error (streams st) id = Some s0 ->
  exists st',
    run JSON_parse [CameraClicked; CameraSettled (Granted s); CancelClicked]
      st = Some st' /\
    showCamera st' = false /\ video st' = None /\
    nth_error (streams st') id = Some s0 /\
    nth_error (streams st') (List.length (streams st)) =
      Some (stop_tracks s).
Proof.
  intros Hv Hn.
  assert (Hlt : (id < List.length (streams st))%nat)
    by (apply nth_error_Some; congruence).
  unfold run, step, startCamera_start, startCamera_resume, stopCamera.
  simpl. rewrite Hv. simpl.
  eexists. split; [reflexivity|]. simpl.
  split; [reflexivity|]. split; [reflexivity|].
  rewrite stop_stream_last. split.
  - rewrite nth_error_app1 by exact Hlt. exact Hn.
  - rewrite nth_error_app2 by lia. now rewrite Nat.sub_diag.
Qed.

Lemma camera_exit_unbound (fin : Event) (st st' : State) :
  showCamera st = true -> video st = Some None ->
  (fin = CancelClicked \/ exists url, fin = CaptureClicked (Some url)) ->
  step JSON_parse fin st = Some st' ->
  showCamera st' = false /\ video st' = None /\ streams st' = streams st.
Proof.
  intros Hs Hv [->|[url ->]] H; unfold step in H; rewrite Hs in H;
    unfold capturePhoto, stopCamera in H; simpl in H; rewrite Hv in H;
    injection H as <-; now repeat split.
Qed.

(** X16. Leaving camera mode before the stream is granted loses the stream.
    From a state with camera mode off: the camera button, then cancel or a
    capture, and only then the grant, with any events of the other controls
    in between, end with camera mode off and no preview, and with the
    granted stream added untouched: a track of it that is live stays
    live. *)
Theorem camera_exit_before_grant_leaks (es1 es2 : list Event)
    (s : MediaStream) (fin : Event) (st st' : State) :
  camera_idle st = true ->
  forallb (fun e => negb (camera_event e)) es1 = true ->
  forallb (fun e => negb (camera_event e)) es2 = true ->
  (fin = CancelClicked \/ exists url, fin = CaptureClicked (Some url)) ->
  run JSON_parse
    (CameraClicked :: es1 ++ fin :: es2 ++ [CameraSettled (Granted s)]) st
    = Some st' ->
  showCamera st' = false /\ video st' = None /\
  streams st' = streams st ++ [s] /\
  camera_idle st' = stream_released s.
Proof.
  intros Hidle H1 H2 Hfin H.
  destruct (camera_idle_inv st Hidle) as (Hs & Hv & Hrel).
  change (run JSON_parse (es1 ++ fin :: es2 ++ [CameraSettled (Granted s)])
            (render (startCamera_start st)) = Some st') in H.
  rewrite run_app in H.
  assert (Hs1 : showCamera (render (startCamera_start st)) = true)
    by reflexivity.
  assert (Hv1 : video (render (startCamera_start st)) = Some None)
    by (simpl; now rewrite Hv).
  destruct (run JSON_parse es1 (render (startCamera_start st)))
    as [st2|] eqn:E1; [|discriminate].
  destruct (camera_on_run es1 _ st2 None Hs1 Hv1 H1 E1)
    as (Hs2 & Hv2 & Hss2).
  simpl in Hss2. rewrite run_cons in H.
  destruct (step JSON_parse fin st2) as [st3|] eqn:E3; [|discriminate].
  destruct (camera_exit_unbound fin st2 st3 Hs2 Hv2 Hfin E3)
    as (Hs3 & Hv3 & Hss3).
  rewrite run_app in H.
  destruct (run JSON_parse es2 st3) as [st4|] eqn:E4; [|discriminate].
  assert (Hr3 : video (render st3) = video st3)
    by (unfold render; simpl; now rewrite Hs3, Hv3).
  destruct (camera_frame_run es2 st3 st4 Hr3 H2 E4) as (Hs4 & Hss4 & Hv4).
  rewrite Hs3 in Hs4. rewrite Hv3 in Hv4. rewrite Hss3, Hss2 in Hss4.
  unfold run, step, startCamera_resume in H. simpl in H.
  rewrite Hv4 in H. simpl in H.
  injection H as <-. simpl. rewrite Hs4, Hss4.
  split; [reflexivity|]. split; [reflexivity|]. split; [reflexivity|].
  unfold camera_idle, preview_shown, camera_released. simpl.
  rewrite ?Hs4, ?Hss4, forallb_app. simpl.
  unfold camera_released in Hrel. rewrite Hrel.
  now rewrite andb_true_r.
Qed.

(** X17. The displayed result is changed by five handlers only: a settled
    analysis that got a response, the end of a file read, a capture that
    got a frame, a click on a history card, and the discard button.  So
    deleting the entry on display, or clearing the whole history, leaves it
    on display. *)
Theorem result_changed_only_by_its_handlers (e : Event) (st st' : State) :
  changes_result e = false ->
  step JSON_parse e st = Some st' ->
  result st' = result st.
Proof.
  intros Hm H. step_cases e H; congruence.
Qed.

End Extras.

(** ** Values the markup cannot draw *)

Section ExtrasLive.

Variable JSON_parse : string -> option JSON.
Variable Number_gt0 : string -> bool.

(** X7. A snapshot that parses to a value that cannot be iterated and with
    which the history section still draws (a number, a boolean, an object
    whose [length] is not above zero) is restored as the history, and the
    component mounts with no card.  From then on every analysis that gets a
    parsable response throws in the history updater, and no run of events
    replaces the stored value. *)
Theorem mount_non_iterable_snapshot (s : string) (v : JSON) :
  s <> "" ->
  JSON_parse s = Some v ->
  iterate v = None ->
  history_draws Number_gt0 v = true ->
  (exists st,
      live_mount JSON_parse Number_gt0 (Some s) = Some st /\
      history st = v /\ rendered_items st = []) /\
  (forall es st', run JSON_parse es (mount JSON_parse (Some s)) = Some st' ->
     history st' = v /\
     forall text now data,
       JSON_parse (text_or_default text) = Some data ->
       analyzeProduct_resume JSON_parse (Responded text) now st' = None).
Proof.
  intros Hne P Hi Hd.
  assert (E : history (mount JSON_parse (Some s)) = v).
  { unfold mount, loadHistory, truthy_string.
    destruct (String.eqb_spec s ""); [contradiction|]. simpl.
    now rewrite P. }
  assert (Hr : result (mount JSON_parse (Some s)) = JNull).
  { unfold mount, loadHistory. destruct (truthy_string s); [|reflexivity].
    now destruct (JSON_parse s). }
  split.
  - unfold live_mount, shown, draws. rewrite Hr, E, Hd. simpl.
    eexists. split; [reflexivity|]. split; [exact E|].
    unfold rendered_items. rewrite E.
    destruct v; try reflexivity. discriminate.
  - generalize dependent (mount JSON_parse (Some s)). intros st0 E _ es.
    revert st0 E. induction es as [|e rest IH]; simpl; intros st0 E st' H.
    + injection H as <-. split; [exact E|].
      intros text now data Pd. unfold analyzeProduct_resume, historyAppend.
      now rewrite Pd, E, Hi.
    + destruct (step JSON_parse e st0) as [st1|] eqn:S1; [|discriminate].
      apply (IH st1); [|exact H].
      rewrite (poisoned_step JSON_parse e st0 st1) by (now rewrite ?E).
      exact E.
Qed.

(** X11. A response without fields is not caught as a failure, and it
    cannot be drawn.  When the parsed value has no own property (null, a
    number, a boolean, an empty object, array or string; a missing and an
    empty text are read as the text of the empty object) the handler sets
    no error and stores an object holding only the timestamp; the render
    that follows throws on its missing nutrition, so the settlement ends
    with the tree unmounted. *)
Theorem analysis_of_fieldless_response (text : option string) (now : Z)
    (data : JSON) (st : State) (l : list JSON) :
  JSON_parse (text_or_default text) = Some data ->
  own_props data = [] ->
  iterate (history st) = Some l ->
  (exists st',
      analyzeProduct_resume JSON_parse (Responded text) now st = Some st' /\
      result st' = JObject [("timestamp", JNumber (inject_Z now))] /\
      history st' =
        JArray (firstn 10
                  (JObject [("timestamp", JNumber (inject_Z now))] :: l)) /\
      error st' = error st /\
      draws Number_gt0 st' = false)
  /\
  live_step JSON_parse Number_gt0 (AnalysisSettled (Responded text) now) st
    = None
  /\
  text_or_default None = "{}" /\ text_or_default (Some "") = "{}".
Proof.
  intros P Hp Hi.
  assert (E : withTimestamp data now =
              JObject [("timestamp", JNumber (inject_Z now))]).
  { unfold withTimestamp, spread. rewrite Hp. reflexivity. }
  split; [|split; [|split; reflexivity]].
  - unfold analyzeProduct_resume, historyAppend. rewrite P, Hi, E.
    eexists. split; [reflexivity|]. now repeat split.
  - unfold live_step, step, analyzeProduct_resume, historyAppend.
    rewrite P, Hi, E. reflexivity.
Qed.

End ExtrasLive.


(** * The further properties at concrete inputs *)

(** X1, at grade A against a lower-case letter. *)
Lemma getGradeColor_identifies_grade_witness :
  is_grade (Some (JString "A")) = true /\
  getGradeColor (Some (JString "A")) = "bg-green-500" /\
  getGradeColor (Some (JString "A")) <> "bg-gray-500" /\
  getGradeColor (Some (JString "a")) = "bg-gray-500".
Proof.
  split; [reflexivity|]. split; [reflexivity|].
  destruct (getGradeColor_identifies_grade
              (Some (JString "A")) (Some (JString "a")) eq_refl)
    as (_ & Hgray & Hfall).
  split; [exact Hgray | exact (Hfall eq_refl)].
Defined.

(** X2, at a remote call that was rejected. *)
Lemma history_changed_only_by_its_handlers_witness :
  mutates_history (AnalysisSettled (Rejected "Failed to fetch") 11) = false /\
  exists st',
    step JSONText.parse (AnalysisSettled (Rejected "Failed to fetch") 11) busy_session
      = Some st' /\
    history st' = JArray ten_entries.
Proof.
  split; [reflexivity|]. eexists. split; [reflexivity|].
  exact (history_changed_only_by_its_handlers JSONText.parse
           (AnalysisSettled (Rejected "Failed to fetch") 11) busy_session _ eq_refl eq_refl).
Defined.

(** X3, at a successful analysis. *)
Lemma image_changed_only_by_its_handlers_witness :
  changes_image (AnalysisSettled (Responded (Some good_response)) 11)
    = false /\
  exists st',
    step JSONText.parse
      (AnalysisSettled (Responded (Some good_response)) 11) busy_session
      = Some st' /\
    image st' = Some photo.
Proof.
  split; [reflexivity|]. eexists. split; [vm_compute; reflexivity|].
  exact (image_changed_only_by_its_handlers JSONText.parse
           (AnalysisSettled (Responded (Some good_response)) 11)
           busy_session _ eq_refl ltac:(vm_compute; reflexivity)).
Defined.

(** X4, at a file read that ends while the size message is shown. *)
Lemma error_cleared_only_by_analyze_witness :
  starts_analysis (FileLoaded (Some photo)) = false /\
  exists st',
    step JSONText.parse (FileLoaded (Some photo))
      (setError (Some FILE_TOO_LARGE) busy_session) = Some st' /\
    error st' <> None.
Proof.
  split; [reflexivity|]. eexists. split; [reflexivity|].
  apply (error_cleared_only_by_analyze JSONText.parse
           (FileLoaded (Some photo))
           (setError (Some FILE_TOO_LARGE) busy_session) _
           eq_refl eq_refl).
  discriminate.
Defined.

(** X5, at uploads, history clicks and the camera during an analysis. *)
Lemma no_second_analysis_in_flight_witness :
  analyzing (analyzeProduct_start photo busy_session) = true /\
  step JSONText.parse AnalyzeClicked
    (analyzeProduct_start photo busy_session) = None /\
  exists st',
    run JSONText.parse
      [FileChosen (Some (mkFile 100)); FileLoaded (Some photo);
       HistoryItemClicked 1; HistoryDeleteClicked 0; CameraClicked]
      (analyzeProduct_start photo busy_session) = Some st' /\
    analyzing st' = true /\
    submitted st' = [photo].
Proof.
  split; [reflexivity|]. split; [reflexivity|].
  eexists. split; [vm_compute; reflexivity|].
  exact (no_second_analysis_in_flight JSONText.parse
           [FileChosen (Some (mkFile 100)); FileLoaded (Some photo);
            HistoryItemClicked 1; HistoryDeleteClicked 0; CameraClicked]
           (analyzeProduct_start photo busy_session) _
           eq_refl eq_refl ltac:(vm_compute; reflexivity)).
Defined.

(** X6, at analyses, a deletion and a declined clear from a full history. *)
Lemma history_capped_in_every_run_witness :
  history busy_session = JArray ten_entries /\
  (List.length ten_entries <= 10)%nat /\
  exists st',
    run JSONText.parse
      [AnalysisSettled (Responded (Some good_response)) 11;
       HistoryDeleteClicked 0;
       AnalysisSettled (Responded None) 12;
       AnalysisSettled (Responded (Some good_response)) 13;
       ClearHistoryClicked false] busy_session = Some st' /\
    exists l', history st' = JArray l' /\ (List.length l' <= 10)%nat.
Proof.
  assert (Hlen : (List.length ten_entries <= 10)%nat) by (simpl; lia).
  split; [reflexivity|]. split; [exact Hlen|].
  eexists. split; [vm_compute; reflexivity|].
  exact (proj1 (history_capped_in_every_run JSONText.parse
           [AnalysisSettled (Responded (Some good_response)) 11;
            HistoryDeleteClicked 0;
            AnalysisSettled (Responded None) 12;
            AnalysisSettled (Responded (Some good_response)) 13;
            ClearHistoryClicked false]
           busy_session _ ten_entries eq_refl Hlen
           ltac:(vm_compute; reflexivity))).
Defined.

(** X7, at a snapshot that is the text of the empty object. *)
Lemma mount_non_iterable_snapshot_witness :
  "{}" <> "" /\
  JSONText.parse "{}" = Some (JObject []) /\
  iterate (JObject []) = None /\
  history_draws NumberText.positive (JObject []) = true /\
  exists st,
    live_mount JSONText.parse NumberText.positive (Some "{}") = Some st /\
    history st = JObject [] /\
    analyzeProduct_resume JSONText.parse (Responded (Some full_response)) 11
      st = None.
Proof.
  assert (Hne : "{}" <> "") by discriminate.
  assert (Hp : JSONText.parse "{}" = Some (JObject []))
    by (vm_compute; reflexivity).
  split; [exact Hne|]. split; [exact Hp|]. split; [reflexivity|].
  split; [reflexivity|].
  destruct (mount_non_iterable_snapshot JSONText.parse NumberText.positive
              "{}" (JObject []) Hne Hp eq_refl eq_refl)
    as [(st & Hm & Hh & _) Hrun].
  exists st. split; [exact Hm|]. split; [exact Hh|].
  assert (Est : st = mount JSONText.parse (Some "{}")).
  { vm_compute in Hm. injection Hm as <-. vm_compute. reflexivity. }
  destruct (Hrun [] st ltac:(rewrite Est; reflexivity)) as [_ Hthrow].
  destruct (JSONText.parse (text_or_default (Some full_response)))
    as [data|] eqn:Pd; [|vm_compute in Pd; discriminate Pd].
  exact (Hthrow (Some full_response) 11%Z data Pd).
Defined.

(** X8, at a full history. *)
Lemma clearHistory_gated_by_confirmation_witness :
  rendered_items busy_session <> [] /\
  (exists st',
      step JSONText.parse (ClearHistoryClicked true) busy_session
        = Some st' /\
      history st' = JArray [] /\ result st' = entry 10) /\
  (exists st',
      step JSONText.parse (ClearHistoryClicked false) busy_session
        = Some st' /\
      history st' = JArray ten_entries).
Proof.
  assert (Hne : rendered_items busy_session <> []) by discriminate.
  split; [exact Hne|].
  destruct (clearHistory_gated_by_confirmation JSONText.parse busy_session
              Hne) as [(c & Hc & Hh & Hr & _) (d & Hd & Hk)].
  split; [exists c | exists d]; now repeat split.
Defined.

(** X9, at a file of exactly 5 MiB. *)
Lemma upload_within_limit_witness :
  (size (mkFile 5242880) <= 5 * 1024 * 1024)%N /\
  handleFileUpload (Some (mkFile 5242880)) busy_session
    = (busy_session, Some (mkFile 5242880)) /\
  exists st',
    run JSONText.parse
      [FileChosen (Some (mkFile 5242880)); FileLoaded (Some photo)]
      (setError (Some FILE_TOO_LARGE) busy_session) = Some st' /\
    image st' = Some photo /\ result st' = JNull /\
    error st' = Some FILE_TOO_LARGE.
Proof.
  assert (H : (size (mkFile 5242880) <= 5 * 1024 * 1024)%N)
    by (simpl; lia).
  split; [exact H|].
  split; [exact (proj1 (upload_within_limit JSONText.parse (mkFile 5242880)
                          None busy_session H))|].
  destruct (upload_within_limit JSONText.parse (mkFile 5242880)
              (Some photo) (setError (Some FILE_TOO_LARGE) busy_session) H)
    as (_ & st' & Hrun & Hi & Hr & _ & He & _).
  exists st'. now repeat split.
Defined.

(** X11, at the response text null. *)
Lemma analysis_of_fieldless_response_witness :
  JSONText.parse (text_or_default (Some "null")) = Some JNull /\
  own_props JNull = [] /\
  iterate (history busy_session) = Some ten_entries /\
  (exists st',
      analyzeProduct_resume JSONText.parse (Responded (Some "null")) 1700
        busy_session = Some st' /\
      result st' = JObject [("timestamp", JNumber (inject_Z 1700))] /\
      error st' = None /\
      draws NumberText.positive st' = false) /\
  live_step JSONText.parse NumberText.positive
    (AnalysisSettled (Responded (Some "null")) 1700) busy_session = None.
Proof.
  assert (Hp : JSONText.parse (text_or_default (Some "null")) = Some JNull)
    by (vm_compute; reflexivity).
  split; [exact Hp|]. split; [reflexivity|]. split; [reflexivity|].
  destruct (analysis_of_fieldless_response JSONText.parse
              NumberText.positive (Some "null") 1700 JNull busy_session
              ten_entries Hp eq_refl eq_refl)
    as ((st' & E & Hr & _ & He & Hd) & Hlive & _).
  split; [|exact Hlive].
  exists st'. now repeat split.
Defined.

(** X12, at the product name of a full response. *)
Lemma analysis_keeps_response_fields_witness :
  JSONText.parse (text_or_default (Some good_response)) =
    Some (JObject [("product_name", JString "Oat drink");
                   ("health_grade", JString "A");
                   ("timestamp", JNumber (inject_Z 1))]) /\
  "product_name" <> "timestamp" /\
  exists st' props',
    analyzeProduct_resume JSONText.parse (Responded (Some good_response))
      1700 busy_session = Some st' /\
    result st' = JObject props' /\
    obj_get "product_name" props' = Some (JString "Oat drink").
Proof.
  assert (Hk : "product_name" <> "timestamp") by discriminate.
  assert (Hnd : NoDup (map fst
                  [("product_name", JString "Oat drink");
                   ("health_grade", JString "A");
                   ("timestamp", JNumber (inject_Z 1))])).
  { repeat constructor; simpl; intuition discriminate. }
  split; [exact parse_good_response|]. split; [exact Hk|].
  exact (analysis_keeps_response_fields JSONText.parse (Some good_response)
           1700 _ busy_session ten_entries "product_name"
           parse_good_response Hnd eq_refl Hk).
Defined.

(** X13, at a session with a file dialog closed and a failed analysis in
    between, ended by a capture. *)
Lemma camera_session_releases_stream_witness :
  camera_idle (mount JSONText.parse None) = true /\
  exists st',
    run JSONText.parse
      (CameraClicked :: [FileChosen None]
         ++ CameraSettled (Granted [Live; Live])
         :: [AnalysisSettled (Rejected "Failed to fetch") 3] ++ [CaptureClicked (Some photo)])
      (mount JSONText.parse None) = Some st' /\
    camera_idle st' = true /\
    streams st' = [[Ended; Ended]].
Proof.
  split; [reflexivity|]. eexists. split; [vm_compute; reflexivity|].
  exact (camera_session_releases_stream JSONText.parse
           [FileChosen None] [AnalysisSettled (Rejected "Failed to fetch") 3] [Live; Live]
           (CaptureClicked (Some photo)) (mount JSONText.parse None) _
           eq_refl eq_refl eq_refl
           (or_intror (ex_intro _ photo eq_refl))
           ltac:(vm_compute; reflexivity)).
Defined.

(** X14, at a refusal that comes after a history click. *)
Lemma camera_denied_leaves_no_stream_witness :
  camera_idle busy_session = true /\
  exists st',
    run JSONText.parse
      (CameraClicked :: [HistoryItemClicked 0] ++ [CameraSettled Denied])
      busy_session = Some st' /\
    camera_idle st' = true /\
    streams st' = [] /\
    error st' = Some CAMERA_DENIED.
Proof.
  split; [reflexivity|]. eexists. split; [vm_compute; reflexivity|].
  exact (camera_denied_leaves_no_stream JSONText.parse
           [HistoryItemClicked 0] busy_session _ eq_refl eq_refl
           ltac:(vm_compute; reflexivity)).
Defined.

(** X15, at the session whose camera is on. *)
Lemma second_camera_start_orphans_first_witness :
  exists st,
    camera_session = Some st /\
    video st = Some (Some 0%nat) /\
    nth_error (streams st) 0 = Some [Live] /\
    exists st',
      run JSONText.parse
        [CameraClicked; CameraSettled (Granted [Live]); CancelClicked] st
        = Some st' /\
      showCamera st' = false /\ video st' = None /\
      nth_error (streams st') 0 = Some [Live] /\
      nth_error (streams st') 1 = Some [Ended].
Proof.
  eexists. split; [vm_compute; reflexivity|].
  split; [reflexivity|]. split; [reflexivity|].
  match goal with
  | |- exists st', run _ _ ?st = _ /\ _ =>
      exact (second_camera_start_orphans_first JSONText.parse [Live] st 0
               [Live] eq_refl eq_refl)
  end.
Defined.

(** X16, at a cancel that comes before the grant. *)
Lemma camera_exit_before_grant_leaks_witness :
  camera_idle (mount JSONText.parse None) = true /\
  exists st',
    run JSONText.parse
      (CameraClicked :: [] ++ CancelClicked
         :: [FileChosen None] ++ [CameraSettled (Granted [Live])])
      (mount JSONText.parse None) = Some st' /\
    showCamera st' = false /\ video st' = None /\
    streams st' = [[Live]] /\
    camera_idle st' = false.
Proof.
  split; [reflexivity|]. eexists. split; [vm_compute; reflexivity|].
  exact (camera_exit_before_grant_leaks JSONText.parse
           [] [FileChosen None] [Live] CancelClicked
           (mount JSONText.parse None) _
           eq_refl eq_refl eq_refl (or_introl eq_refl)
           ltac:(vm_compute; reflexivity)).
Defined.

(** X17, at the deletion of the entry on display. *)
Lemma result_changed_only_by_its_handlers_witness :
  changes_result (HistoryDeleteClicked 0) = false /\
  result busy_session = entry 10 /\
  nth_error (rendered_items busy_session) 0 = Some (entry 10) /\
  exists st',
    step JSONText.parse (HistoryDeleteClicked 0) busy_session = Some st' /\
    nth_error (rendered_items st') 0 = Some (entry 9) /\
    result st' = entry 10.
Proof.
  split; [reflexivity|]. split; [reflexivity|]. split; [reflexivity|].
  eexists. split; [reflexivity|]. split; [reflexivity|].
  exact (result_changed_only_by_its_handlers JSONText.parse
           (HistoryDeleteClicked 0) busy_session _ eq_refl eq_refl).
Defined.
